(** * The graph server of skydive: topology/graph/server.go

    A shallow embedding of the message codec [UnmarshalWSMessage], of the
    dispatcher [GraphServer.OnMessage] and of the six listener callbacks
    that relay local graph mutations to the connected peers, followed by
    the properties the specification states about them.

    The file [server.go] is the only file of the package at hand.  What it
    calls but does not define (the [Graph] with its nodes and edges, the
    JSON decoders, the websocket server) is gathered in the interface
    [Collaborators]; the code of [server.go] is written once, over any
    implementation of that interface. *)

From stdpp Require Import base strings list gmap.

Local Open Scope string_scope.
Local Open Scope list_scope.

(** ** Data *)

(** [json.RawMessage] is a [[]byte]. *)
Definition RawMessage : Type := list Byte.byte.

(** [type Identifier string] *)
Definition Identifier : Type := string.

(** The package [shttp]: the envelope travelling on a websocket.  [Obj] is
    a [*json.RawMessage], a pointer that may be [nil]. *)
Module shttp.
Record WSMessage : Type := {
  Namespace : string;
  Type_ : string;
  Obj : option RawMessage
}.
End shttp.

Abbreviation WSMessage := shttp.WSMessage.

(** [const ( Namespace = "Graph" )] *)
Definition Namespace : string := "Graph".

(** Of a node and of an edge [server.go] reads the fields [ID] and
    [metadata]; an edge has two endpoints besides. *)
Record Node {Metadata : Type} : Type := {
  Node_ID : Identifier;
  Node_metadata : Metadata
}.
Arguments Node : clear implicits.

Record Edge {Metadata : Type} : Type := {
  Edge_ID : Identifier;
  Edge_parent : Identifier;
  Edge_child : Identifier;
  Edge_metadata : Metadata
}.
Arguments Edge : clear implicits.

(** The six notifications a graph sends to its listeners; each one is a
    method of the listener interface that [GraphServer] implements. *)
Inductive GraphEvent {Metadata : Type} : Type :=
| NodeUpdatedEvent (n : Node Metadata)
| NodeAddedEvent (n : Node Metadata)
| NodeDeletedEvent (n : Node Metadata)
| EdgeUpdatedEvent (e : Edge Metadata)
| EdgeAddedEvent (e : Edge Metadata)
| EdgeDeletedEvent (e : Edge Metadata).
Arguments GraphEvent : clear implicits.

(** ** What [server.go] calls and does not define

    A mutating method of the graph returns the graph after the call and
    the notifications it sent, in the order it sent them. *)
Class Collaborators : Type := {
  Metadata : Type;
  (** the [interface{}] that [json.Unmarshal] fills *)
  JSONValue : Type;
  error : Type;
  WSClient : Type;
  Graph : Type;
  (** [encoding/json] *)
  json_Unmarshal : RawMessage -> JSONValue + error;
  json_Marshal : Graph -> RawMessage * option error;
  (** [func (n *Node) Decode(obj interface{}) error] and its twin *)
  Node_Decode : JSONValue -> Node Metadata + error;
  Edge_Decode : JSONValue -> Edge Metadata + error;
  (** [func (n *Node) JsonRawMessage() *json.RawMessage] and its twin *)
  Node_JsonRawMessage : Node Metadata -> option RawMessage;
  Edge_JsonRawMessage : Edge Metadata -> option RawMessage;
  (** the methods of [*Graph] *)
  GetNode : Graph -> Identifier -> option (Node Metadata);
  GetEdge : Graph -> Identifier -> option (Edge Metadata);
  AddNode : Graph -> Node Metadata -> Graph * list (GraphEvent Metadata);
  DelNode : Graph -> Node Metadata -> Graph * list (GraphEvent Metadata);
  AddEdge : Graph -> Edge Metadata -> Graph * list (GraphEvent Metadata);
  DelEdge : Graph -> Edge Metadata -> Graph * list (GraphEvent Metadata);
  SetMetadata :
    Graph -> Node Metadata + Edge Metadata -> Metadata ->
    Graph * list (GraphEvent Metadata);
  DelSubGraph : Graph -> Node Metadata -> Graph * list (GraphEvent Metadata)
}.

(** ** Effects *)

(** How a call ends: it returns, or it panics. *)
Inductive panic : Type :=
| NilDereference
| FailedTypeAssertion.

Inductive outcome (A : Type) : Type :=
| Returned (a : A)
| Panicked (p : panic).
Arguments Returned {A} a.
Arguments Panicked {A} p.

Section GraphServer.
Context `{Collaborators}.

(** What a handler does to the world outside the graph. *)
Inductive Effect : Type :=
| Graph_Lock
| Graph_Unlock
| Errorf (msg : WSMessage) (err : error)
| Debugf (id : Identifier)
| SendWSMessage (c : WSClient) (msg : WSMessage)
| BroadcastWSMessage (msg : WSMessage).

(** A method of the server: from the graph before the call to the way
    the call ends, the graph after it, and the effects in order. *)
Definition Srv (A : Type) : Type := Graph -> outcome A * Graph * list Effect.

Definition ret {A} (a : A) : Srv A := fun g => (Returned a, g, []).

Definition bind {A B} (m : Srv A) (k : A -> Srv B) : Srv B :=
  fun g =>
    match m g with
    | (Returned a, g1, t1) =>
        match k a g1 with (r, g2, t2) => (r, g2, t1 ++ t2) end
    | (Panicked p, g1, t1) => (Panicked p, g1, t1)
    end.

Definition emit (e : Effect) : Srv unit := fun g => (Returned tt, g, [e]).

Definition raise {A} (p : panic) : Srv A := fun g => (Panicked p, g, []).

Definition lift {A} (r : outcome A) : Srv A :=
  match r with Returned a => ret a | Panicked p => raise p end.

(** [s.Graph], read. *)
Definition graph : Srv Graph := fun g => (Returned g, g, []).

(** [defer d]: [d] runs when the body ends, also when it panics. *)
Definition defer {A} (d : Srv unit) (body : Srv A) : Srv A :=
  fun g =>
    match body g with
    | (r, g1, t1) => match d g1 with (_, g2, t2) => (r, g2, t1 ++ t2) end
    end.
End GraphServer.

Notation "x <- m ;; k" := (bind m (fun x => k))
  (at level 100, m at next level, k at level 200, right associativity,
   only parsing).
Notation "m ;;; k" := (bind m (fun _ => k))
  (at level 100, k at level 200, right associativity, only parsing).

Section Server.
Context `{Collaborators}.

(** ** The codec *)

(** The second result of [UnmarshalWSMessage] is an [interface{}] that
    holds the message itself, a [*Node] or an [*Edge]. *)
Inductive Object : Type :=
| ObjMessage (msg : WSMessage)
| ObjNode (n : Node Metadata)
| ObjEdge (e : Edge Metadata).

(** [*msg.Obj] *)
Definition deref (p : option RawMessage) : outcome RawMessage :=
  match p with
  | Some raw => Returned raw
  | None => Panicked NilDereference
  end.

Definition UnmarshalWSMessage (msg : WSMessage)
  : outcome (string * Object * option error) :=
  if shttp.Type_ msg =? "SyncRequest" then
    Returned (shttp.Type_ msg, ObjMessage msg, None)
  else if (shttp.Type_ msg =? "SubGraphDeleted")
          || (shttp.Type_ msg =? "NodeUpdated")
          || (shttp.Type_ msg =? "NodeDeleted")
          || (shttp.Type_ msg =? "NodeAdded") then
    match deref (shttp.Obj msg) with
    | Panicked p => Panicked p
    | Returned raw =>
        match json_Unmarshal raw with
        | inr err => Returned ("", ObjMessage msg, Some err)
        | inl obj =>
            match Node_Decode obj with
            | inr err => Returned ("", ObjMessage msg, Some err)
            | inl node => Returned (shttp.Type_ msg, ObjNode node, None)
            end
        end
    end
  else if (shttp.Type_ msg =? "EdgeUpdated")
          || (shttp.Type_ msg =? "EdgeDeleted")
          || (shttp.Type_ msg =? "EdgeAdded") then
    match deref (shttp.Obj msg) with
    | Panicked p => Panicked p
    | Returned raw =>
        match json_Unmarshal raw with
        | inr err => Returned ("", ObjMessage msg, Some err)
        | inl obj =>
            match Edge_Decode obj with
            | inr err => Returned ("", ObjMessage msg, Some err)
            | inl edge => Returned (shttp.Type_ msg, ObjEdge edge, None)
            end
        end
    end
  else
    Returned ("", ObjMessage msg, None).

(** ** The relay: the listener callbacks *)

Definition OnNodeUpdated (n : Node Metadata) : Srv unit :=
  emit (BroadcastWSMessage
          {| shttp.Namespace := Namespace;
             shttp.Type_ := "NodeUpdated";
             shttp.Obj := Node_JsonRawMessage n |}).

Definition OnNodeAdded (n : Node Metadata) : Srv unit :=
  emit (BroadcastWSMessage
          {| shttp.Namespace := Namespace;
             shttp.Type_ := "NodeAdded";
             shttp.Obj := Node_JsonRawMessage n |}).

Definition OnNodeDeleted (n : Node Metadata) : Srv unit :=
  emit (BroadcastWSMessage
          {| shttp.Namespace := Namespace;
             shttp.Type_ := "NodeDeleted";
             shttp.Obj := Node_JsonRawMessage n |}).

Definition OnEdgeUpdated (e : Edge Metadata) : Srv unit :=
  emit (BroadcastWSMessage
          {| shttp.Namespace := Namespace;
             shttp.Type_ := "EdgeUpdated";
             shttp.Obj := Edge_JsonRawMessage e |}).

Definition OnEdgeAdded (e : Edge Metadata) : Srv unit :=
  emit (BroadcastWSMessage
          {| shttp.Namespace := Namespace;
             shttp.Type_ := "EdgeAdded";
             shttp.Obj := Edge_JsonRawMessage e |}).

Definition OnEdgeDeleted (e : Edge Metadata) : Srv unit :=
  emit (BroadcastWSMessage
          {| shttp.Namespace := Namespace;
             shttp.Type_ := "EdgeDeleted";
             shttp.Obj := Edge_JsonRawMessage e |}).

(** Modelled from the spec: the graph's notification of its listeners
    ([AddEventListener] and the loop that calls them are not in
    [server.go]).  [NewServer] registers the server as a listener of
    its graph; the graph "notifies registered listeners synchronously
    on every mutation", one callback per mutation, "six callback shapes
    total". *)
Definition notifyListener (ev : GraphEvent Metadata) : Srv unit :=
  match ev with
  | NodeUpdatedEvent n => OnNodeUpdated n
  | NodeAddedEvent n => OnNodeAdded n
  | NodeDeletedEvent n => OnNodeDeleted n
  | EdgeUpdatedEvent e => OnEdgeUpdated e
  | EdgeAddedEvent e => OnEdgeAdded e
  | EdgeDeletedEvent e => OnEdgeDeleted e
  end.

Fixpoint notifyListeners (evs : list (GraphEvent Metadata)) : Srv unit :=
  match evs with
  | [] => ret tt
  | ev :: evs' => notifyListener ev ;;; notifyListeners evs'
  end.

(** A call of a mutating method of [s.Graph]: the graph changes, and the
    notifications reach the server's callbacks before the call returns. *)
Definition mutate (op : Graph -> Graph * list (GraphEvent Metadata))
  : Srv unit :=
  fun g =>
    match op g with
    | (g1, evs) => notifyListeners evs g1
    end.

(** ** The dispatcher *)

(** The type assertions of [obj] to a node pointer and to an edge
    pointer, which panic on another type. *)
Definition assertNode (obj : Object) : Srv (Node Metadata) :=
  match obj with
  | ObjNode n => ret n
  | _ => raise FailedTypeAssertion
  end.

Definition assertEdge (obj : Object) : Srv (Edge Metadata) :=
  match obj with
  | ObjEdge e => ret e
  | _ => raise FailedTypeAssertion
  end.

Definition OnMessage (c : WSClient) (msg : WSMessage) : Srv unit :=
  if negb (shttp.Namespace msg =? Namespace) then ret tt
  else
    emit Graph_Lock ;;;
    defer (emit Graph_Unlock)
      (r <- lift (UnmarshalWSMessage msg) ;;
       match r with
       | (_, _, Some err) => emit (Errorf msg err)
       | (msgType, obj, None) =>
           if msgType =? "SyncRequest" then
             g <- graph ;;
             let raw := fst (json_Marshal g) in
             let reply :=
               {| shttp.Namespace := Namespace;
                  shttp.Type_ := "SyncReply";
                  shttp.Obj := Some raw |} in
             emit (SendWSMessage c reply)
           else if msgType =? "SubGraphDeleted" then
             n <- assertNode obj ;;
             emit (Debugf (Node_ID n)) ;;;
             g <- graph ;;
             match GetNode g (Node_ID n) with
             | Some node => mutate (fun g => DelSubGraph g node)
             | None => ret tt
             end
           else if msgType =? "NodeUpdated" then
             n <- assertNode obj ;;
             g <- graph ;;
             match GetNode g (Node_ID n) with
             | Some node =>
                 mutate (fun g => SetMetadata g (inl node) (Node_metadata n))
             | None => ret tt
             end
           else if msgType =? "NodeDeleted" then
             n <- assertNode obj ;;
             mutate (fun g => DelNode g n)
           else if msgType =? "NodeAdded" then
             n <- assertNode obj ;;
             g <- graph ;;
             match GetNode g (Node_ID n) with
             | None => mutate (fun g => AddNode g n)
             | Some _ => ret tt
             end
           else if msgType =? "EdgeUpdated" then
             e <- assertEdge obj ;;
             g <- graph ;;
             match GetEdge g (Edge_ID e) with
             | Some edge =>
                 mutate (fun g => SetMetadata g (inr edge) (Edge_metadata e))
             | None => ret tt
             end
           else if msgType =? "EdgeDeleted" then
             e <- assertEdge obj ;;
             mutate (fun g => DelEdge g e)
           else if msgType =? "EdgeAdded" then
             e <- assertEdge obj ;;
             g <- graph ;;
             match GetEdge g (Edge_ID e) with
             | None => mutate (fun g => AddEdge g e)
             | Some _ => ret tt
             end
           else ret tt
       end).

End Server.

(** ** A graph in memory, to run the server on examples *)

Module Memory.

(** Modelled from the spec: the types [Node], [Edge], [Metadata] and
    [Graph] and the methods of [Graph] are not in [server.go].  The
    data model gives a node an identity and "a mapping of metadata
    key->value", the graph "the full set of nodes and edges", with
    "lookup-by-ID, add/delete, metadata replace"; it "notifies
    registered listeners synchronously on every mutation". *)
Definition metadata : Type := gmap string string.

Record graph : Type := {
  nodes : gmap Identifier (Node metadata);
  edges : gmap Identifier (Edge metadata)
}.

Definition get_node (g : graph) (i : Identifier) : option (Node metadata) :=
  nodes g !! i.

Definition get_edge (g : graph) (i : Identifier) : option (Edge metadata) :=
  edges g !! i.

Definition add_node (g : graph) (n : Node metadata)
  : graph * list (GraphEvent metadata) :=
  ({| nodes := <[Node_ID n := n]> (nodes g); edges := edges g |},
   [NodeAddedEvent n]).

Definition add_edge (g : graph) (e : Edge metadata)
  : graph * list (GraphEvent metadata) :=
  ({| nodes := nodes g; edges := <[Edge_ID e := e]> (edges g) |},
   [EdgeAddedEvent e]).

(** Modelled from the spec: "deleting a non-existent node must be a safe
    no-op within the Graph collaborator"; the node is found by the
    identity the argument carries. *)
Definition del_node (g : graph) (n : Node metadata)
  : graph * list (GraphEvent metadata) :=
  match nodes g !! Node_ID n with
  | Some n' =>
      ({| nodes := delete (Node_ID n) (nodes g); edges := edges g |},
       [NodeDeletedEvent n'])
  | None => (g, [])
  end.

Definition del_edge (g : graph) (e : Edge metadata)
  : graph * list (GraphEvent metadata) :=
  match edges g !! Edge_ID e with
  | Some e' =>
      ({| nodes := nodes g; edges := delete (Edge_ID e) (edges g) |},
       [EdgeDeletedEvent e'])
  | None => (g, [])
  end.

(** Modelled from the spec: "metadata replace" of the stored entity. *)
Definition set_metadata (g : graph)
    (x : Node metadata + Edge metadata) (m : metadata)
  : graph * list (GraphEvent metadata) :=
  match x with
  | inl n =>
      match nodes g !! Node_ID n with
      | Some n0 =>
          let n' := {| Node_ID := Node_ID n0; Node_metadata := m |} in
          ({| nodes := <[Node_ID n := n']> (nodes g); edges := edges g |},
           [NodeUpdatedEvent n'])
      | None => (g, [])
      end
  | inr e =>
      match edges g !! Edge_ID e with
      | Some e0 =>
          let e' := {| Edge_ID := Edge_ID e0;
                       Edge_parent := Edge_parent e0;
                       Edge_child := Edge_child e0;
                       Edge_metadata := m |} in
          ({| nodes := nodes g; edges := <[Edge_ID e := e']> (edges g) |},
           [EdgeUpdatedEvent e'])
      | None => (g, [])
      end
  end.

(** One round of the search: the far end of every edge that touches
    [seen] joins it. *)
Definition grow (es : list (Edge metadata)) (seen : gset Identifier)
  : gset Identifier :=
  foldr (fun e acc =>
           if decide (Edge_parent e ∈ seen) then {[Edge_child e]} ∪ acc
           else if decide (Edge_child e ∈ seen) then {[Edge_parent e]} ∪ acc
           else acc)
        seen es.

Fixpoint reach (rounds : nat) (es : list (Edge metadata))
    (seen : gset Identifier) : gset Identifier :=
  match rounds with
  | O => seen
  | S k => reach k es (grow es seen)
  end.

(** Modelled from the spec: "delete the entire connected subgraph
    reachable from it".  Every edge that is removed and every node that
    is removed is notified as a deletion; there is no callback for the
    subgraph as a whole. *)
Definition del_sub_graph (g : graph) (root : Node metadata)
  : graph * list (GraphEvent metadata) :=
  let es := (map_to_list (edges g)).*2 in
  let seen := reach (length es) es {[Node_ID root]} in
  let dead_edges :=
    List.filter
      (fun e => bool_decide (Edge_parent e ∈ seen ∨ Edge_child e ∈ seen)) es in
  let dead_nodes :=
    List.filter (fun n => bool_decide (Node_ID n ∈ seen))
      (map_to_list (nodes g)).*2 in
  ({| nodes := foldr (fun n m => delete (Node_ID n) m) (nodes g) dead_nodes;
      edges := foldr (fun e m => delete (Edge_ID e) m) (edges g) dead_edges |},
   (EdgeDeletedEvent <$> dead_edges) ++ (NodeDeletedEvent <$> dead_nodes)).

(** *** A stand-in for the wire format

    Enough of a payload syntax to run the server: a payload is a
    sequence of fields separated by commas.  A node is written [id] or
    [id,key,value]; an edge [id,parent,child] or
    [id,parent,child,key,value].  An empty payload does not parse. *)
Fixpoint fields (s : string) : list string :=
  match s with
  | EmptyString => [EmptyString]
  | String c s' =>
      if Ascii.eqb c (Ascii.ascii_of_nat 44) then EmptyString :: fields s'
      else match fields s' with
           | f :: fs => String c f :: fs
           | [] => [String c EmptyString]
           end
  end.

Definition unmarshal (raw : RawMessage) : list string + string :=
  match raw with
  | [] => inr "unexpected end of JSON input"
  | _ => inl (fields (String.string_of_list_byte raw))
  end.

Definition node_decode (obj : list string) : Node metadata + string :=
  match obj with
  | [i] => inl {| Node_ID := i; Node_metadata := ∅ |}
  | [i; k; v] => inl {| Node_ID := i; Node_metadata := {[k := v]} |}
  | _ => inr "not a node"
  end.

Definition edge_decode (obj : list string) : Edge metadata + string :=
  match obj with
  | [i; p; c] =>
      inl {| Edge_ID := i; Edge_parent := p; Edge_child := c;
             Edge_metadata := ∅ |}
  | [i; p; c; k; v] =>
      inl {| Edge_ID := i; Edge_parent := p; Edge_child := c;
             Edge_metadata := {[k := v]} |}
  | _ => inr "not an edge"
  end.

Definition join (fs : list string) : string :=
  match fs with
  | [] => ""
  | f :: fs' => foldl (fun acc x => acc +:+ "," +:+ x) f fs'
  end.

Definition metadata_fields (m : metadata) : list string :=
  flat_map (fun kv => [kv.1; kv.2]) (map_to_list m).

Definition node_fields (n : Node metadata) : list string :=
  Node_ID n :: metadata_fields (Node_metadata n).

Definition edge_fields (e : Edge metadata) : list string :=
  Edge_ID e :: Edge_parent e :: Edge_child e
    :: metadata_fields (Edge_metadata e).

Definition node_raw (n : Node metadata) : option RawMessage :=
  Some (String.list_byte_of_string (join (node_fields n))).

Definition edge_raw (e : Edge metadata) : option RawMessage :=
  Some (String.list_byte_of_string (join (edge_fields e))).

Definition marshal (g : graph) : RawMessage * option string :=
  (String.list_byte_of_string
     (join (flat_map (fun kv => node_fields kv.2) (map_to_list (nodes g))
            ++ flat_map (fun kv => edge_fields kv.2) (map_to_list (edges g)))),
   None).

#[export] Instance collaborators : Collaborators := {|
  Metadata := metadata;
  JSONValue := list string;
  error := string;
  WSClient := nat;
  Graph := graph;
  json_Unmarshal := unmarshal;
  json_Marshal := marshal;
  Node_Decode := node_decode;
  Edge_Decode := edge_decode;
  Node_JsonRawMessage := node_raw;
  Edge_JsonRawMessage := edge_raw;
  GetNode := get_node;
  GetEdge := get_edge;
  AddNode := add_node;
  DelNode := del_node;
  AddEdge := add_edge;
  DelEdge := del_edge;
  SetMetadata := set_metadata;
  DelSubGraph := del_sub_graph
|}.

Definition empty : graph := {| nodes := ∅; edges := ∅ |}.

Definition message (ns ty : string) (payload : string) : WSMessage :=
  {| shttp.Namespace := ns; shttp.Type_ := ty;
     shttp.Obj := Some (String.list_byte_of_string payload) |}.

End Memory.

(** Two entities and a graph that holds them, and the server on the
    graph in memory. *)
Module Examples.

Definition n1 : Node Memory.metadata :=
  {| Node_ID := "n1"; Node_metadata := ∅ |}.

Definition e1 : Edge Memory.metadata :=
  {| Edge_ID := "e1"; Edge_parent := "n1"; Edge_child := "n2";
     Edge_metadata := ∅ |}.

(** The graph that holds [n1] and [e1]. *)
Definition g1 : Memory.graph :=
  (Memory.add_edge (Memory.add_node Memory.empty n1).1 e1).1.

Definition handle : nat -> WSMessage -> Memory.graph -> _ :=
  OnMessage (H := Memory.collaborators).

Definition codec : WSMessage -> _ :=
  UnmarshalWSMessage (H := Memory.collaborators).

End Examples.

(** ** Properties of the codec and of the dispatcher *)

(** The ways a handler's run is observed. *)
Definition outcome_of `{Collaborators} {A}
    (r : outcome A * Graph * list Effect) : outcome A := r.1.1.
Definition graph_after `{Collaborators} {A}
    (r : outcome A * Graph * list Effect) : Graph := r.1.2.
Definition effects_of `{Collaborators} {A}
    (r : outcome A * Graph * list Effect) : list Effect := r.2.

(** The types the codec decodes into a node, those it decodes into an
    edge, and the nine types of the protocol. *)
Definition node_types : list string :=
  ["SubGraphDeleted"; "NodeUpdated"; "NodeDeleted"; "NodeAdded"].
Definition edge_types : list string :=
  ["EdgeUpdated"; "EdgeDeleted"; "EdgeAdded"].
Definition recognized_types : list string :=
  "SyncRequest" :: "SyncReply" :: node_types ++ edge_types.

(** The envelope the relay is to send for a notification: the type is the
    kind of the mutation, the payload the serialized entity. *)
Definition event_type {M} (ev : GraphEvent M) : string :=
  match ev with
  | NodeUpdatedEvent _ => "NodeUpdated"
  | NodeAddedEvent _ => "NodeAdded"
  | NodeDeletedEvent _ => "NodeDeleted"
  | EdgeUpdatedEvent _ => "EdgeUpdated"
  | EdgeAddedEvent _ => "EdgeAdded"
  | EdgeDeletedEvent _ => "EdgeDeleted"
  end.

Definition event_payload `{Collaborators} (ev : GraphEvent Metadata)
  : option RawMessage :=
  match ev with
  | NodeUpdatedEvent n | NodeAddedEvent n | NodeDeletedEvent n =>
      Node_JsonRawMessage n
  | EdgeUpdatedEvent e | EdgeAddedEvent e | EdgeDeletedEvent e =>
      Edge_JsonRawMessage e
  end.

Definition broadcast_of `{Collaborators} (ev : GraphEvent Metadata) : Effect :=
  BroadcastWSMessage
    {| shttp.Namespace := Namespace;
       shttp.Type_ := event_type ev;
       shttp.Obj := event_payload ev |}.

(** The node, or the edge, that the payload of a message decodes to. *)
Definition payload_node `{Collaborators} (msg : WSMessage)
  : option (Node Metadata) :=
  match shttp.Obj msg with
  | Some raw =>
      match json_Unmarshal raw with
      | inl obj =>
          match Node_Decode obj with inl n => Some n | inr _ => None end
      | inr _ => None
      end
  | None => None
  end.

Definition payload_edge `{Collaborators} (msg : WSMessage)
  : option (Edge Metadata) :=
  match shttp.Obj msg with
  | Some raw =>
      match json_Unmarshal raw with
      | inl obj =>
          match Edge_Decode obj with inl e => Some e | inr _ => None end
      | inr _ => None
      end
  | None => None
  end.

(** A message carries the node [inl n] under the type [node_type], or the
    edge [inr e] under the type [edge_type]. *)
Definition carries `{Collaborators} (msg : WSMessage)
    (node_type edge_type : string) (x : Node Metadata + Edge Metadata) : Prop :=
  match x with
  | inl n => shttp.Type_ msg = node_type ∧ payload_node msg = Some n
  | inr e => shttp.Type_ msg = edge_type ∧ payload_edge msg = Some e
  end.

(** The entity of the graph that has the identity of [x], if any. *)
Definition stored `{Collaborators} (g : Graph)
    (x : Node Metadata + Edge Metadata)
  : option (Node Metadata + Edge Metadata) :=
  match x with
  | inl n => inl <$> GetNode g (Node_ID n)
  | inr e => inr <$> GetEdge g (Edge_ID e)
  end.

Definition add `{Collaborators} (g : Graph)
    (x : Node Metadata + Edge Metadata) : Graph * list (GraphEvent Metadata) :=
  match x with inl n => AddNode g n | inr e => AddEdge g e end.

Definition del `{Collaborators} (g : Graph)
    (x : Node Metadata + Edge Metadata) : Graph * list (GraphEvent Metadata) :=
  match x with inl n => DelNode g n | inr e => DelEdge g e end.

Definition incoming_metadata `{Collaborators}
    (x : Node Metadata + Edge Metadata) : Metadata :=
  match x with inl n => Node_metadata n | inr e => Edge_metadata e end.

(** The payload of a message fails a stage of the decoding with [err]:
    the bytes do not parse, or what they parse to has not the shape of a
    node (for a type decoded into a node) or of an edge. *)
Inductive DecodeFails `{Collaborators} (msg : WSMessage) (err : error) : Prop :=
| raw_parse_fails raw :
    shttp.Type_ msg ∈ node_types ++ edge_types ->
    shttp.Obj msg = Some raw ->
    json_Unmarshal raw = inr err ->
    DecodeFails msg err
| node_shape_fails raw obj :
    shttp.Type_ msg ∈ node_types ->
    shttp.Obj msg = Some raw ->
    json_Unmarshal raw = inl obj ->
    Node_Decode obj = inr err ->
    DecodeFails msg err
| edge_shape_fails raw obj :
    shttp.Type_ msg ∈ edge_types ->
    shttp.Obj msg = Some raw ->
    json_Unmarshal raw = inl obj ->
    Edge_Decode obj = inr err ->
    DecodeFails msg err.

(** The envelope [msg] under another namespace. *)
Definition in_namespace (ns : string) (msg : WSMessage) : WSMessage :=
  {| shttp.Namespace := ns;
     shttp.Type_ := shttp.Type_ msg;
     shttp.Obj := shttp.Obj msg |}.

(** What the codec decoded, the echoed message left out. *)
Definition decoded `{Collaborators}
    (r : outcome (string * Object * option error))
  : outcome (string * option (Node Metadata + Edge Metadata) * option error) :=
  match r with
  | Returned (t, ObjMessage _, e) => Returned (t, None, e)
  | Returned (t, ObjNode n, e) => Returned (t, Some (inl n), e)
  | Returned (t, ObjEdge ed, e) => Returned (t, Some (inr ed), e)
  | Panicked p => Panicked p
  end.

(** ** The handler, case by case *)

(** The reply to a [SyncRequest] on the graph [g]. *)
Definition sync_reply `{Collaborators} (g : Graph) : WSMessage :=
  {| shttp.Namespace := Namespace;
     shttp.Type_ := "SyncReply";
     shttp.Obj := Some (json_Marshal g).1 |}.

(** The ways the codec ends on [msg]. *)
Inductive CodecCase `{Collaborators} (msg : WSMessage)
  : outcome (string * Object * option error) -> Prop :=
| codec_sync :
    shttp.Type_ msg = "SyncRequest" ->
    CodecCase msg (Returned (shttp.Type_ msg, ObjMessage msg, None))
| codec_nil :
    shttp.Type_ msg ∈ node_types ++ edge_types ->
    shttp.Obj msg = None ->
    CodecCase msg (Panicked NilDereference)
| codec_failed err :
    DecodeFails msg err ->
    CodecCase msg (Returned ("", ObjMessage msg, Some err))
| codec_node_ok n :
    shttp.Type_ msg ∈ node_types ->
    payload_node msg = Some n ->
    CodecCase msg (Returned (shttp.Type_ msg, ObjNode n, None))
| codec_edge_ok e :
    shttp.Type_ msg ∈ edge_types ->
    payload_edge msg = Some e ->
    CodecCase msg (Returned (shttp.Type_ msg, ObjEdge e, None))
| codec_other :
    shttp.Type_ msg ∉ "SyncRequest" :: node_types ++ edge_types ->
    CodecCase msg (Returned ("", ObjMessage msg, None)).

(** A run that takes the lock, does [mid] and releases the lock. *)
Definition locked `{Collaborators} (r : outcome unit) (g : Graph)
    (mid : list Effect) : outcome unit * Graph * list Effect :=
  (r, g, Graph_Lock :: mid ++ [Graph_Unlock]).

(** What the handler asks of the graph [g] for a message that carries a
    node or an edge: what it logs before, and the result of the one
    method of the graph it calls, if it calls one. *)
Inductive GraphCall `{Collaborators} (g : Graph) (msg : WSMessage)
  : list Effect -> Graph * list (GraphEvent Metadata) -> Prop :=
| call_del_sub_graph n :
    shttp.Type_ msg = "SubGraphDeleted" ->
    payload_node msg = Some n ->
    GraphCall g msg [Debugf (Node_ID n)]
      match GetNode g (Node_ID n) with
      | Some node => DelSubGraph g node
      | None => (g, [])
      end
| call_set_metadata x :
    carries msg "NodeUpdated" "EdgeUpdated" x ->
    GraphCall g msg []
      match stored g x with
      | Some y => SetMetadata g y (incoming_metadata x)
      | None => (g, [])
      end
| call_del x :
    carries msg "NodeDeleted" "EdgeDeleted" x ->
    GraphCall g msg [] (del g x)
| call_add x :
    carries msg "NodeAdded" "EdgeAdded" x ->
    GraphCall g msg []
      match stored g x with
      | Some _ => (g, [])
      | None => add g x
      end.

(** The ways the handler ends on [msg], for the connection [c] and the
    graph [g]. *)
Inductive Handled `{Collaborators} (c : WSClient) (msg : WSMessage) (g : Graph)
  : outcome unit * Graph * list Effect -> Prop :=
| handled_foreign :
    shttp.Namespace msg ≠ Namespace ->
    Handled c msg g (Returned tt, g, [])
| handled_sync :
    shttp.Namespace msg = Namespace ->
    shttp.Type_ msg = "SyncRequest" ->
    Handled c msg g (locked (Returned tt) g [SendWSMessage c (sync_reply g)])
| handled_nil :
    shttp.Namespace msg = Namespace ->
    shttp.Type_ msg ∈ node_types ++ edge_types ->
    shttp.Obj msg = None ->
    Handled c msg g (locked (Panicked NilDereference) g [])
| handled_error err :
    shttp.Namespace msg = Namespace ->
    DecodeFails msg err ->
    Handled c msg g (locked (Returned tt) g [Errorf msg err])
| handled_unknown :
    shttp.Namespace msg = Namespace ->
    shttp.Type_ msg ∉ "SyncRequest" :: node_types ++ edge_types ->
    Handled c msg g (locked (Returned tt) g [])
| handled_entity pre res :
    shttp.Namespace msg = Namespace ->
    GraphCall g msg pre res ->
    Handled c msg g
      (locked (Returned tt) res.1 (pre ++ (broadcast_of <$> res.2))).

(** The message that the relay broadcasts for a notification, and the
    entity the notification is about. *)
Definition relayed `{Collaborators} (ev : GraphEvent Metadata) : WSMessage :=
  {| shttp.Namespace := Namespace;
     shttp.Type_ := event_type ev;
     shttp.Obj := event_payload ev |}.

Definition event_entity {M} (ev : GraphEvent M) : Node M + Edge M :=
  match ev with
  | NodeUpdatedEvent n | NodeAddedEvent n | NodeDeletedEvent n => inl n
  | EdgeUpdatedEvent e | EdgeAddedEvent e | EdgeDeletedEvent e => inr e
  end.

Definition object_of `{Collaborators}
    (x : Node Metadata + Edge Metadata) : Object :=
  match x with inl n => ObjNode n | inr e => ObjEdge e end.

(** The payload of [msg] decodes to the entity [x]. *)
Definition payload_is `{Collaborators} (msg : WSMessage)
    (x : Node Metadata + Edge Metadata) : Prop :=
  match x with
  | inl n => payload_node msg = Some n
  | inr e => payload_edge msg = Some e
  end.

(** The same message delivered [k] times in a row, each delivery on the
    graph the one before left; the effects of all deliveries, in order.
    A delivery that panics ends the run. *)
Fixpoint deliveries `{Collaborators} (k : nat) (c : WSClient) (msg : WSMessage)
    (g : Graph) : outcome unit * Graph * list Effect :=
  match k with
  | O => (Returned tt, g, [])
  | S k' =>
      match OnMessage c msg g with
      | (Returned _, g1, t1) =>
          match deliveries k' c msg g1 with
          | (r, g2, t2) => (r, g2, t1 ++ t2)
          end
      | (Panicked p, g1, t1) => (Panicked p, g1, t1)
      end
  end.

Ltac run :=
  unfold OnMessage, bind, defer, emit, lift, ret, raise, graph,
    assertNode, assertEdge; simpl.

Ltac not_listed H :=
  cbv [recognized_types node_types edge_types app] in H;
  repeat (apply elem_of_cons in H as [H|H]; [discriminate H|]);
  apply elem_of_nil in H; destruct H.

Ltac type_listed :=
  cbv [recognized_types node_types edge_types app]; repeat constructor.

Ltac neq_types H :=
  cbv [recognized_types node_types edge_types app] in H;
  repeat match type of H with
         | _ ∉ _ :: _ => apply not_elem_of_cons in H as [?%String.eqb_neq H]
         end.

Ltac in_types H :=
  cbv [recognized_types node_types edge_types app] in H;
  repeat match type of H with
         | _ ∈ _ :: _ => apply elem_of_cons in H as [->|H]
         | _ ∈ [] => apply elem_of_nil in H; destruct H
         end.

Section Properties.
Context `{Collaborators}.

Implicit Types (c : WSClient) (msg : WSMessage) (g : Graph).

Lemma notifyListeners_run (evs : list (GraphEvent Metadata)) g :
  notifyListeners evs g = (Returned tt, g, broadcast_of <$> evs).
Proof.
  induction evs as [|ev evs IH]; [reflexivity|].
  destruct ev; cbn [notifyListeners notifyListener]; unfold bind;
    cbv [OnNodeUpdated OnNodeAdded OnNodeDeleted
         OnEdgeUpdated OnEdgeAdded OnEdgeDeleted emit];
    rewrite IH; reflexivity.
Qed.

Lemma mutate_run (op : Graph -> Graph * list (GraphEvent Metadata)) g :
  mutate op g = (Returned tt, (op g).1, broadcast_of <$> (op g).2).
Proof.
  unfold mutate. destruct (op g) as [g1 evs].
  rewrite notifyListeners_run. reflexivity.
Qed.

Lemma codec_node msg n :
  shttp.Type_ msg ∈ node_types -> payload_node msg = Some n ->
  UnmarshalWSMessage msg = Returned (shttp.Type_ msg, ObjNode n, None).
Proof.
  unfold payload_node, UnmarshalWSMessage. intros Ht Hn.
  destruct (shttp.Obj msg) as [raw|]; [|discriminate]. simpl.
  destruct (json_Unmarshal raw) as [obj|]; [|discriminate].
  destruct (Node_Decode obj) as [n'|]; [|discriminate].
  injection Hn as ->.
  in_types Ht; reflexivity.
Qed.

Lemma codec_edge msg e :
  shttp.Type_ msg ∈ edge_types -> payload_edge msg = Some e ->
  UnmarshalWSMessage msg = Returned (shttp.Type_ msg, ObjEdge e, None).
Proof.
  unfold payload_edge, UnmarshalWSMessage. intros Ht He.
  destruct (shttp.Obj msg) as [raw|]; [|discriminate]. simpl.
  destruct (json_Unmarshal raw) as [obj|]; [|discriminate].
  destruct (Edge_Decode obj) as [e'|]; [|discriminate].
  injection He as ->.
  in_types Ht; reflexivity.
Qed.

Lemma codec_unknown msg :
  shttp.Type_ msg ∉ "SyncRequest" :: node_types ++ edge_types ->
  UnmarshalWSMessage msg = Returned ("", ObjMessage msg, None).
Proof.
  intros Ht. unfold UnmarshalWSMessage. neq_types Ht.
  repeat match goal with E : (_ =? _) = false |- _ => rewrite E; clear E end.
  reflexivity.
Qed.

Lemma in_graph_namespace msg :
  shttp.Namespace msg = Namespace ->
  negb (shttp.Namespace msg =? Namespace) = false.
Proof. intros ->. reflexivity. Qed.

(** C7.  A message of another namespace than [Namespace] is dropped at
    once, whatever its type and payload: the handler returns, the graph
    is the one before, and there is no effect at all; nothing is sent,
    nothing is broadcast, the lock is not even taken. *)
Theorem foreign_namespace_is_ignored c msg g :
  shttp.Namespace msg ≠ Namespace ->
  OnMessage c msg g = (Returned tt, g, []).
Proof.
  intros Hns%String.eqb_neq. unfold OnMessage. rewrite Hns. reflexivity.
Qed.

(** C2.  A [SyncRequest] in the graph namespace is answered by exactly
    one message, of type [SyncReply] and of the same namespace, whose
    payload is the serialization of the whole current graph, sent to
    the requesting connection [c]; nothing is broadcast and the graph is
    the one before. *)
Theorem sync_request_is_answered_to_the_requester c msg g :
  shttp.Namespace msg = Namespace ->
  shttp.Type_ msg = "SyncRequest" ->
  OnMessage c msg g =
    (Returned tt, g,
     [Graph_Lock;
      SendWSMessage c {| shttp.Namespace := Namespace;
                         shttp.Type_ := "SyncReply";
                         shttp.Obj := Some (json_Marshal g).1 |};
      Graph_Unlock]).
Proof.
  intros Hns Ht. unfold OnMessage, UnmarshalWSMessage.
  rewrite (in_graph_namespace _ Hns), Ht. reflexivity.
Qed.

(** C8.  A message of the graph namespace whose type is none of the nine
    types of the protocol is decoded without error into the empty tag,
    and handling it changes nothing: the graph is the one before,
    nothing is sent, nothing is broadcast, nothing is logged. *)
Theorem unknown_type_is_tolerated c msg g :
  shttp.Namespace msg = Namespace ->
  shttp.Type_ msg ∉ recognized_types ->
  UnmarshalWSMessage msg = Returned ("", ObjMessage msg, None)
  ∧ OnMessage c msg g = (Returned tt, g, [Graph_Lock; Graph_Unlock]).
Proof.
  intros Hns Ht.
  assert (Hc : UnmarshalWSMessage msg = Returned ("", ObjMessage msg, None)).
  { apply codec_unknown. intros Hin. apply Ht. unfold recognized_types.
    apply elem_of_cons in Hin as [->|Hin]; [left|do 2 right]; done. }
  split; [exact Hc|].
  unfold OnMessage. rewrite (in_graph_namespace _ Hns). run. rewrite Hc.
  reflexivity.
Qed.

(** C3.  Whatever mutations the graph reports to its listener, the relay
    answers each of them by exactly one broadcast, in the order of the
    reports: the broadcast's namespace is [Namespace], its type names
    the kind of the mutation (NodeUpdated, NodeAdded, NodeDeleted,
    EdgeUpdated, EdgeAdded, EdgeDeleted), its payload is what
    [JsonRawMessage] gives for the mutated node or edge.  The relay
    returns and the graph is not touched. *)
Theorem relay_broadcasts_each_mutation_in_order
    (evs : list (GraphEvent Metadata)) g :
  notifyListeners evs g =
    (Returned tt, g,
     (fun ev => BroadcastWSMessage
                  {| shttp.Namespace := Namespace;
                     shttp.Type_ := event_type ev;
                     shttp.Obj := event_payload ev |}) <$> evs).
Proof. apply notifyListeners_run. Qed.

(** What the handler does with a decoded add, update or delete. *)
Lemma OnMessage_add c msg g x :
  shttp.Namespace msg = Namespace ->
  carries msg "NodeAdded" "EdgeAdded" x ->
  OnMessage c msg g =
    match stored g x with
    | Some _ => (Returned tt, g, [Graph_Lock; Graph_Unlock])
    | None =>
        (Returned tt, (add g x).1,
         Graph_Lock :: (broadcast_of <$> (add g x).2) ++ [Graph_Unlock])
    end.
Proof.
  intros Hns Hx. unfold OnMessage. rewrite (in_graph_namespace _ Hns).
  destruct x as [n|e]; destruct Hx as [Ht Hp]; cbn [stored add].
  - run. rewrite (codec_node msg n), Ht by (rewrite ?Ht; type_listed || reflexivity || assumption). simpl.
    destruct (GetNode g (Node_ID n)); [reflexivity|].
    rewrite mutate_run. reflexivity.
  - run. rewrite (codec_edge msg e), Ht by (rewrite ?Ht; type_listed || reflexivity || assumption). simpl.
    destruct (GetEdge g (Edge_ID e)); [reflexivity|].
    rewrite mutate_run. reflexivity.
Qed.

Lemma OnMessage_update c msg g x :
  shttp.Namespace msg = Namespace ->
  carries msg "NodeUpdated" "EdgeUpdated" x ->
  OnMessage c msg g =
    match stored g x with
    | None => (Returned tt, g, [Graph_Lock; Graph_Unlock])
    | Some y =>
        let r := SetMetadata g y (incoming_metadata x) in
        (Returned tt, r.1,
         Graph_Lock :: (broadcast_of <$> r.2) ++ [Graph_Unlock])
    end.
Proof.
  intros Hns Hx. unfold OnMessage. rewrite (in_graph_namespace _ Hns).
  destruct x as [n|e]; destruct Hx as [Ht Hp]; cbn [stored incoming_metadata].
  - run. rewrite (codec_node msg n), Ht
      by (rewrite ?Ht; type_listed || assumption). simpl.
    destruct (GetNode g (Node_ID n)); [|reflexivity].
    rewrite mutate_run. reflexivity.
  - run. rewrite (codec_edge msg e), Ht
      by (rewrite ?Ht; type_listed || assumption). simpl.
    destruct (GetEdge g (Edge_ID e)); [|reflexivity].
    rewrite mutate_run. reflexivity.
Qed.

Lemma OnMessage_delete c msg g x :
  shttp.Namespace msg = Namespace ->
  carries msg "NodeDeleted" "EdgeDeleted" x ->
  OnMessage c msg g =
    (Returned tt, (del g x).1,
     Graph_Lock :: (broadcast_of <$> (del g x).2) ++ [Graph_Unlock]).
Proof.
  intros Hns Hx. unfold OnMessage. rewrite (in_graph_namespace _ Hns).
  destruct x as [n|e]; destruct Hx as [Ht Hp]; cbn [del].
  - run. rewrite (codec_node msg n), Ht
      by (rewrite ?Ht; type_listed || assumption). simpl.
    rewrite mutate_run. reflexivity.
  - run. rewrite (codec_edge msg e), Ht
      by (rewrite ?Ht; type_listed || assumption). simpl.
    rewrite mutate_run. reflexivity.
Qed.

(** C1.  Let a message of the graph namespace carry a node under
    [NodeAdded], or an edge under [EdgeAdded].  If an entity of that
    identity is in the graph, handling the message adds nothing: the
    graph is the one before, nothing is sent or broadcast.  Hence, as
    soon as the graph finds by its identity what was just added to it,
    the message delivered twice leaves what it leaves delivered once:
    after the first delivery the entity is in the graph, and the
    second delivery is a no-op. *)
Theorem duplicate_add_is_a_no_op c msg g x :
  shttp.Namespace msg = Namespace ->
  carries msg "NodeAdded" "EdgeAdded" x ->
  (is_Some (stored g x) ->
   OnMessage c msg g = (Returned tt, g, [Graph_Lock; Graph_Unlock]))
  ∧ (is_Some (stored (add g x).1 x) ->
     let g1 := graph_after (OnMessage c msg g) in
     is_Some (stored g1 x)
     ∧ OnMessage c msg g1 = (Returned tt, g1, [Graph_Lock; Graph_Unlock])).
Proof.
  intros Hns Hx.
  assert (Hdup : forall g', is_Some (stored g' x) ->
            OnMessage c msg g' = (Returned tt, g', [Graph_Lock; Graph_Unlock])).
  { intros g' [y Hy]. rewrite (OnMessage_add c msg g' x Hns Hx), Hy.
    reflexivity. }
  split; [apply Hdup|].
  intros Hfound g1.
  assert (Hg1 : is_Some (stored g1 x)).
  { subst g1. rewrite (OnMessage_add c msg g x Hns Hx).
    destruct (stored g x) eqn:Hs; unfold graph_after; simpl;
      [rewrite Hs; eauto | exact Hfound]. }
  split; [exact Hg1 | apply Hdup, Hg1].
Qed.

(** C4.  Let a message of the graph namespace carry a node under
    [NodeUpdated], or an edge under [EdgeUpdated].  If no entity of that
    identity is in the graph, handling the message leaves the graph as
    it is and sends nothing: the update is dropped, nothing is added.
    If there is one, the handler does one thing to the graph: it sets
    the metadata of the stored entity to the metadata the message
    carries; what the graph reports of it is relayed. *)
Theorem update_replaces_metadata_of_a_known_entity_only c msg g x :
  shttp.Namespace msg = Namespace ->
  carries msg "NodeUpdated" "EdgeUpdated" x ->
  match stored g x with
  | None => OnMessage c msg g = (Returned tt, g, [Graph_Lock; Graph_Unlock])
  | Some y =>
      OnMessage c msg g =
        (Returned tt, (SetMetadata g y (incoming_metadata x)).1,
         Graph_Lock
           :: (broadcast_of <$> (SetMetadata g y (incoming_metadata x)).2)
           ++ [Graph_Unlock])
  end.
Proof.
  intros Hns Hx. rewrite (OnMessage_update c msg g x Hns Hx).
  destruct (stored g x); reflexivity.
Qed.

(** C5.  Let a message of the graph namespace carry a node under
    [NodeDeleted], or an edge under [EdgeDeleted].  The handler checks
    nothing: it hands the carried entity to the graph's delete and
    returns.  So, on a graph whose delete of an entity it does not hold
    is a no-op that reports nothing, handling the message when no
    entity of that identity is in the graph does not fail, leaves the
    graph as it is and sends nothing. *)
Theorem delete_of_an_unknown_entity_is_harmless c msg g x :
  shttp.Namespace msg = Namespace ->
  carries msg "NodeDeleted" "EdgeDeleted" x ->
  (forall g' y, stored g' y = None -> del g' y = (g', [])) ->
  stored g x = None ->
  OnMessage c msg g = (Returned tt, g, [Graph_Lock; Graph_Unlock]).
Proof.
  intros Hns Hx Hsafe Habsent.
  rewrite (OnMessage_delete c msg g x Hns Hx), (Hsafe g x Habsent).
  reflexivity.
Qed.

Lemma codec_decode_fails msg err :
  DecodeFails msg err ->
  UnmarshalWSMessage msg = Returned ("", ObjMessage msg, Some err).
Proof.
  unfold UnmarshalWSMessage.
  intros [raw Ht Hraw Hparse | raw obj Ht Hraw Hparse Hshape
          | raw obj Ht Hraw Hparse Hshape];
    in_types Ht; rewrite Hraw; simpl; rewrite Hparse, ?Hshape; reflexivity.
Qed.

(** A message of a decoded type that has no payload at all never reaches
    a decode stage: dereferencing the [nil] payload panics, and the
    deferred unlock runs. *)
Lemma nil_payload_panics c msg g :
  shttp.Namespace msg = Namespace ->
  shttp.Type_ msg ∈ node_types ++ edge_types ->
  shttp.Obj msg = None ->
  OnMessage c msg g = (Panicked NilDereference, g, [Graph_Lock; Graph_Unlock]).
Proof.
  intros Hns Ht Hnil. unfold OnMessage, UnmarshalWSMessage.
  rewrite (in_graph_namespace _ Hns), Hnil.
  in_types Ht; reflexivity.
Qed.

(** C6.  When the payload of a message of the graph namespace fails a
    stage of the decoding (the bytes do not parse, or what they parse to
    is not a node, resp. an edge), the handler logs the error with the
    message and returns: the graph is the one before, nothing is sent,
    nothing is broadcast. *)
Theorem decode_error_is_logged_and_dropped c msg g err :
  shttp.Namespace msg = Namespace ->
  DecodeFails msg err ->
  OnMessage c msg g =
    (Returned tt, g, [Graph_Lock; Errorf msg err; Graph_Unlock]).
Proof.
  intros Hns Hfail. unfold OnMessage. rewrite (in_graph_namespace _ Hns).
  run. rewrite (codec_decode_fails msg err Hfail). reflexivity.
Qed.

Lemma codec_panic msg p :
  UnmarshalWSMessage msg = Panicked p ->
  p = NilDereference ∧ shttp.Obj msg = None.
Proof.
  unfold UnmarshalWSMessage. intros Hc.
  destruct (shttp.Obj msg) as [raw|]; simpl in Hc;
    repeat match type of Hc with
           | context [match ?x with _ => _ end] => destruct x
           end;
    try discriminate Hc; injection Hc as <-; split; reflexivity.
Qed.

Lemma codec_consistent msg t o e :
  UnmarshalWSMessage msg = Returned (t, o, e) ->
  match e with
  | Some _ => t = ""
  | None =>
      (t = "SyncRequest" -> o = ObjMessage msg)
      ∧ (t ∈ node_types -> exists n, o = ObjNode n)
      ∧ (t ∈ edge_types -> exists ed, o = ObjEdge ed)
  end.
Proof.
  unfold UnmarshalWSMessage, deref.
  repeat match goal with
         | |- context [shttp.Type_ msg =? ?s] =>
             destruct (String.eqb_spec (shttp.Type_ msg) s) as [->|?];
             [simpl|]
         end; simpl;
    repeat match goal with
           | |- context [match ?x with _ => _ end] => destruct x
           end;
    intros Hc; simplify_eq; try reflexivity;
    (split; [|split]); intros Hin;
    first [reflexivity | discriminate Hin | by eauto | not_listed Hin].
Qed.

Lemma OnMessage_type_assertions_hold c msg g :
  outcome_of (OnMessage c msg g) ≠ Panicked FailedTypeAssertion.
Proof.
  unfold outcome_of, OnMessage.
  destruct (negb _); [simpl; discriminate|]. run.
  destruct (UnmarshalWSMessage msg) as [[[t o] [err|]]|p] eqn:Hc; simpl;
    try discriminate.
  - pose proof (codec_consistent _ _ _ _ Hc) as (_ & Hn & He).
    repeat match goal with
           | |- context [t =? ?s] =>
               destruct (String.eqb_spec t s) as [->|Hne]; [simpl|clear Hne]
           end; simpl; try discriminate;
      first [destruct Hn as [x ->]; [by type_listed|]
            |destruct He as [x ->]; [by type_listed|]];
      simpl;
      repeat match goal with
             | |- context [match ?x with Some _ => _ | None => _ end] =>
                 destruct x
             end;
      rewrite ?mutate_run; simpl; discriminate.
  - apply codec_panic in Hc as [-> _]. discriminate.
Qed.

(** C10.  The tag and the object that the codec returns agree.  With an
    error the tag is empty.  Without an error, under a tag that stands
    for a node (SubGraphDeleted, NodeUpdated, NodeDeleted, NodeAdded)
    the object is a decoded node, and under a tag that stands for an
    edge (EdgeUpdated, EdgeDeleted, EdgeAdded) it is a decoded edge.
    Hence no type assertion of the dispatcher fails, on any message and
    any graph. *)
Theorem codec_tag_and_object_agree c msg g :
  (forall t o e,
     UnmarshalWSMessage msg = Returned (t, o, e) ->
     match e with
     | Some _ => t = ""
     | None =>
         (t ∈ node_types -> exists n, o = ObjNode n)
         ∧ (t ∈ edge_types -> exists ed, o = ObjEdge ed)
     end)
  ∧ outcome_of (OnMessage c msg g) ≠ Panicked FailedTypeAssertion.
Proof.
  split; [|apply OnMessage_type_assertions_hold].
  intros t o e Hc. apply codec_consistent in Hc.
  destruct e; [exact Hc | apply Hc].
Qed.

Lemma codec_ignores_namespace ns msg :
  decoded (UnmarshalWSMessage (in_namespace ns msg))
  = decoded (UnmarshalWSMessage msg).
Proof.
  unfold UnmarshalWSMessage, in_namespace; simpl.
  repeat match goal with
         | |- context [match ?x with _ => _ end] => destruct x
         end; reflexivity.
Qed.

(** C9, as the code has it.  The codec does not look at the namespace:
    the tag, the decoded node or edge and the error it returns are the
    same under any namespace, and it yields no event and no error for
    every type it does not decode.  It is the dispatcher that keeps
    foreign messages out: for a namespace other than [Namespace] it
    returns before the codec is called, so that nothing decoded from
    such a message reaches the graph. *)
Theorem namespace_is_filtered_by_the_dispatcher c ns msg g :
  decoded (UnmarshalWSMessage (in_namespace ns msg))
  = decoded (UnmarshalWSMessage msg)
  ∧ (shttp.Type_ msg ∉ "SyncRequest" :: node_types ++ edge_types ->
     UnmarshalWSMessage msg = Returned ("", ObjMessage msg, None))
  ∧ (shttp.Namespace msg ≠ Namespace ->
     OnMessage c msg g = (Returned tt, g, [])).
Proof.
  split; [apply codec_ignores_namespace|].
  split; [apply codec_unknown|].
  intros Hns%String.eqb_neq. unfold OnMessage. rewrite Hns. reflexivity.
Qed.

End Properties.

(** ** The server on the graph in memory *)

Lemma Memory_delete_absent (g : Memory.graph)
    (y : Node Memory.metadata + Edge Memory.metadata) :
  stored (H := Memory.collaborators) g y = None ->
  del (H := Memory.collaborators) g y = (g, []).
Proof.
  destruct y as [n|e]; simpl; unfold Memory.get_node, Memory.get_edge,
    Memory.del_node, Memory.del_edge; intros Hy.
  - destruct (Memory.nodes g !! Node_ID n); [discriminate|reflexivity].
  - destruct (Memory.edges g !! Edge_ID e); [discriminate|reflexivity].
Qed.

Lemma Memory_added_is_stored (g : Memory.graph)
    (y : Node Memory.metadata + Edge Memory.metadata) :
  stored (H := Memory.collaborators) (add (H := Memory.collaborators) g y).1 y
  = Some y.
Proof.
  destruct y as [n|e]; simpl; unfold Memory.get_node, Memory.get_edge; simpl;
    rewrite lookup_insert_eq; reflexivity.
Qed.

(** Replacing the metadata of a node leaves every other node, and every
    edge, as it was. *)
Lemma Memory_set_metadata_frame (g : Memory.graph)
    (n : Node Memory.metadata) (m : Memory.metadata) (i : Identifier) :
  i ≠ Node_ID n ->
  Memory.nodes (Memory.set_metadata g (inl n) m).1 !! i = Memory.nodes g !! i
  ∧ Memory.edges (Memory.set_metadata g (inl n) m).1 = Memory.edges g.
Proof.
  intros Hi. unfold Memory.set_metadata.
  destruct (Memory.nodes g !! Node_ID n); simpl; [|done].
  by rewrite lookup_insert_ne.
Qed.

Import Examples.

Lemma foreign_namespace_is_ignored_witness :
  handle 7 (Memory.message "Flow" "NodeAdded" "n1") Memory.empty
  = (Returned tt, Memory.empty, []).
Proof.
  apply (foreign_namespace_is_ignored (H := Memory.collaborators)).
  discriminate.
Defined.

Lemma sync_request_witness :
  effects_of (handle 7 (Memory.message "Graph" "SyncRequest" "") g1)
  = [Graph_Lock;
     SendWSMessage (H := Memory.collaborators) 7
       (Memory.message "Graph" "SyncReply" "n1,e1,n1,n2");
     Graph_Unlock].
Proof.
  unfold handle.
  rewrite (sync_request_is_answered_to_the_requester
             (H := Memory.collaborators) 7 _ g1); reflexivity.
Defined.

Lemma unknown_type_witness :
  handle 7 (Memory.message "Graph" "NodeRenamed" "n1") g1
  = (Returned tt, g1, [Graph_Lock; Graph_Unlock]).
Proof.
  apply (unknown_type_is_tolerated (H := Memory.collaborators)).
  - reflexivity.
  - intros Hin. not_listed Hin.
Defined.

Lemma duplicate_add_witness :
  (handle 7 (Memory.message "Graph" "NodeAdded" "n1") g1
   = (Returned tt, g1, [Graph_Lock; Graph_Unlock]))
  ∧ (handle 7 (Memory.message "Graph" "EdgeAdded" "e1,n1,n2") g1
     = (Returned tt, g1, [Graph_Lock; Graph_Unlock]))
  ∧ (let msg := Memory.message "Graph" "NodeAdded" "n1" in
     let g := graph_after (handle 7 msg Memory.empty) in
     Memory.get_node g "n1" = Some n1
     ∧ handle 7 msg g = (Returned tt, g, [Graph_Lock; Graph_Unlock])).
Proof.
  split; [|split].
  - apply (duplicate_add_is_a_no_op (H := Memory.collaborators)
             7 _ g1 (inl n1)); [reflexivity|split; reflexivity|].
    exists (inl n1). reflexivity.
  - apply (duplicate_add_is_a_no_op (H := Memory.collaborators)
             7 _ g1 (inr e1)); [reflexivity|split; reflexivity|].
    exists (inr e1). reflexivity.
  - split; [reflexivity|].
    apply (duplicate_add_is_a_no_op (H := Memory.collaborators)
             7 _ Memory.empty (inl n1)); [reflexivity|split; reflexivity|].
    exists (inl n1). reflexivity.
Defined.

Lemma update_witness :
  (handle 7 (Memory.message "Graph" "NodeUpdated" "n9,k,v") g1
   = (Returned tt, g1, [Graph_Lock; Graph_Unlock]))
  ∧ (let r := handle 7 (Memory.message "Graph" "NodeUpdated" "n1,k,v") g1 in
     Memory.get_node (graph_after r) "n1"
     = Some {| Node_ID := "n1"; Node_metadata := {["k" := "v"]} |}
     ∧ Memory.get_edge (graph_after r) "e1" = Some e1
     ∧ effects_of r
       = [Graph_Lock;
          BroadcastWSMessage (H := Memory.collaborators)
            (Memory.message "Graph" "NodeUpdated" "n1,k,v");
          Graph_Unlock]).
Proof.
  split.
  - exact (update_replaces_metadata_of_a_known_entity_only
             (H := Memory.collaborators) 7
             (Memory.message "Graph" "NodeUpdated" "n9,k,v") g1
             (inl {| Node_ID := "n9"; Node_metadata := {["k" := "v"]} |})
             eq_refl (conj eq_refl eq_refl)).
  - cbv zeta. unfold handle.
    rewrite (update_replaces_metadata_of_a_known_entity_only
               (H := Memory.collaborators) 7
               (Memory.message "Graph" "NodeUpdated" "n1,k,v") g1
               (inl {| Node_ID := "n1"; Node_metadata := {["k" := "v"]} |})
               eq_refl (conj eq_refl eq_refl)).
    repeat split; reflexivity.
Defined.

Lemma delete_witness :
  (handle 7 (Memory.message "Graph" "NodeDeleted" "n9") g1
   = (Returned tt, g1, [Graph_Lock; Graph_Unlock]))
  ∧ (handle 7 (Memory.message "Graph" "EdgeDeleted" "e9,n1,n2") g1
     = (Returned tt, g1, [Graph_Lock; Graph_Unlock])).
Proof.
  split.
  - apply (delete_of_an_unknown_entity_is_harmless
             (H := Memory.collaborators) 7 _ g1
             (inl {| Node_ID := "n9"; Node_metadata := ∅ |}));
      [reflexivity | split; reflexivity | | reflexivity].
    intros g' y. apply Memory_delete_absent.
  - apply (delete_of_an_unknown_entity_is_harmless
             (H := Memory.collaborators) 7 _ g1
             (inr {| Edge_ID := "e9"; Edge_parent := "n1";
                     Edge_child := "n2"; Edge_metadata := ∅ |}));
      [reflexivity | split; reflexivity | | reflexivity].
    intros g' y. apply Memory_delete_absent.
Defined.

Lemma decode_error_witness :
  (let msg := {| shttp.Namespace := "Graph"; shttp.Type_ := "NodeAdded";
                 shttp.Obj := Some [] |} in
   handle 7 msg g1
   = (Returned tt, g1,
      [Graph_Lock;
       Errorf (H := Memory.collaborators) msg "unexpected end of JSON input";
       Graph_Unlock]))
  ∧ (let msg := Memory.message "Graph" "EdgeUpdated" "e1" in
     handle 7 msg g1
     = (Returned tt, g1,
        [Graph_Lock;
         Errorf (H := Memory.collaborators) msg "not an edge";
         Graph_Unlock])).
Proof.
  split; cbv zeta.
  - apply (decode_error_is_logged_and_dropped (H := Memory.collaborators));
      [reflexivity|].
    apply (raw_parse_fails (H := Memory.collaborators) _ _ []);
      [type_listed | reflexivity | reflexivity].
  - apply (decode_error_is_logged_and_dropped (H := Memory.collaborators));
      [reflexivity|].
    apply (edge_shape_fails (H := Memory.collaborators) _ _
             (String.list_byte_of_string "e1") ["e1"]);
      [type_listed | reflexivity | reflexivity | reflexivity].
Defined.

Lemma codec_tag_and_object_agree_witness :
  (exists n, ObjNode (H := Memory.collaborators) n1 = ObjNode n)
  ∧ outcome_of (handle 7 (Memory.message "Graph" "NodeAdded" "n1") g1)
    ≠ Panicked FailedTypeAssertion.
Proof.
  destruct (codec_tag_and_object_agree (H := Memory.collaborators)
              7 (Memory.message "Graph" "NodeAdded" "n1") g1) as [Hc Ha].
  split; [|exact Ha].
  apply (Hc "NodeAdded" (ObjNode (H := Memory.collaborators) n1) None);
    [reflexivity | type_listed].
Defined.

(** C9, as the specification has it, fails: the codec decodes a node out
    of a message of a foreign namespace, and recognizes a [SyncRequest]
    of a foreign namespace, where "no event" would be the empty tag. *)
Lemma codec_decodes_a_foreign_message :
  (let msg := Memory.message "Flow" "NodeAdded" "n1" in
   shttp.Namespace msg ≠ Namespace
   ∧ codec msg = Returned ("NodeAdded", ObjNode (H := Memory.collaborators) n1, None)
   ∧ codec msg ≠ Returned ("", ObjMessage (H := Memory.collaborators) msg, None))
  ∧ (let msg := {| shttp.Namespace := "Flow"; shttp.Type_ := "SyncRequest";
                   shttp.Obj := None |} in
     shttp.Namespace msg ≠ Namespace
     ∧ codec msg = Returned ("SyncRequest", ObjMessage (H := Memory.collaborators) msg, None)
     ∧ codec msg ≠ Returned ("", ObjMessage (H := Memory.collaborators) msg, None)).
Proof.
  split; cbv zeta; (split; [discriminate|split; [reflexivity|discriminate]]).
Qed.

Lemma namespace_filter_witness :
  (let msg := Memory.message "Flow" "NodeAdded" "n1" in
   decoded (codec msg) = Returned ("NodeAdded", Some (inl n1), None)
   ∧ decoded (codec (in_namespace "Graph" msg)) = decoded (codec msg)
   ∧ handle 7 msg g1 = (Returned tt, g1, []))
  ∧ codec (Memory.message "Flow" "Ping" "n1")
    = Returned ("", ObjMessage (H := Memory.collaborators) (Memory.message "Flow" "Ping" "n1"), None).
Proof.
  pose proof (namespace_is_filtered_by_the_dispatcher
                (H := Memory.collaborators) 7 "Graph"
                (Memory.message "Flow" "NodeAdded" "n1") g1) as (Hi & _ & Hd).
  pose proof (namespace_is_filtered_by_the_dispatcher
                (H := Memory.collaborators) 7 "Graph"
                (Memory.message "Flow" "Ping" "n1") g1) as (_ & Hu & _).
  split; [split; [reflexivity|split; [exact Hi|]]|].
  - apply Hd. discriminate.
  - apply Hu. intros Hin. not_listed Hin.
Defined.

(** The scenarios of the specification, run.  A [NodeAdded] on the empty
    graph: the graph gains the node and the peers are told. *)
Example node_added_end_to_end :
  handle 7 (Memory.message "Graph" "NodeAdded" "n1") Memory.empty
  = (Returned tt, (Memory.add_node Memory.empty n1).1,
     [Graph_Lock;
      BroadcastWSMessage (H := Memory.collaborators)
        (Memory.message "Graph" "NodeAdded" "n1");
      Graph_Unlock]).
Proof. reflexivity. Qed.

(** A [SubGraphDeleted] for [n1] on a graph with the edge [n1 -> n2] and a
    node [n3] apart: [n3] alone is left, the removals are relayed. *)
Example sub_graph_deleted_run :
  let n3 := {| Node_ID := "n3"; Node_metadata := ∅ |} in
  let g := (Memory.add_node
              (Memory.add_node g1 {| Node_ID := "n2"; Node_metadata := ∅ |}).1
              n3).1 in
  let r := handle 7 (Memory.message "Graph" "SubGraphDeleted" "n1") g in
  graph_after r = (Memory.add_node Memory.empty n3).1
  ∧ effects_of r
    = [Graph_Lock;
       Debugf (H := Memory.collaborators) "n1";
       BroadcastWSMessage (Memory.message "Graph" "EdgeDeleted" "e1,n1,n2");
       BroadcastWSMessage (Memory.message "Graph" "NodeDeleted" "n1");
       BroadcastWSMessage (Memory.message "Graph" "NodeDeleted" "n2");
       Graph_Unlock].
Proof. split; reflexivity. Qed.

(** ** More on the codec and on the handler *)

Ltac type_cases H :=
  cbv [recognized_types node_types edge_types app] in H;
  repeat (apply elem_of_cons in H as [H|H]);
  try (apply elem_of_nil in H; destruct H).

Section Cases.
Context `{Collaborators}.

Implicit Types (c : WSClient) (msg : WSMessage) (g : Graph).

Lemma codec_nil_payload msg :
  shttp.Type_ msg ∈ node_types ++ edge_types ->
  shttp.Obj msg = None ->
  UnmarshalWSMessage msg = Panicked NilDereference.
Proof.
  intros Ht Hnil. unfold UnmarshalWSMessage. rewrite Hnil.
  in_types Ht; reflexivity.
Qed.

Lemma codec_sync_request msg :
  shttp.Type_ msg = "SyncRequest" ->
  UnmarshalWSMessage msg = Returned (shttp.Type_ msg, ObjMessage msg, None).
Proof. intros Ht. unfold UnmarshalWSMessage. rewrite Ht. reflexivity. Qed.

(** The codec ends in one of six ways, whatever the message. *)
Lemma codec_cases msg : CodecCase msg (UnmarshalWSMessage msg).
Proof.
  destruct (decide (shttp.Type_ msg = "SyncRequest")) as [Hs|Hs].
  { rewrite (codec_sync_request msg Hs). by apply codec_sync. }
  destruct (decide (shttp.Type_ msg ∈ node_types)) as [Hn|Hn].
  { assert (Hin : shttp.Type_ msg ∈ node_types ++ edge_types)
      by (apply elem_of_app; by left).
    destruct (shttp.Obj msg) as [raw|] eqn:Hraw.
    - destruct (json_Unmarshal raw) as [obj|err] eqn:Hparse.
      + destruct (Node_Decode obj) as [n|err] eqn:Hshape.
        * assert (Hp : payload_node msg = Some n)
            by (unfold payload_node; by rewrite Hraw, Hparse, Hshape).
          rewrite (codec_node msg n Hn Hp). by apply codec_node_ok.
        * rewrite (codec_decode_fails msg err); [|by eapply node_shape_fails].
          apply codec_failed. by eapply node_shape_fails.
      + rewrite (codec_decode_fails msg err); [|by eapply raw_parse_fails].
        apply codec_failed. by eapply raw_parse_fails.
    - rewrite (codec_nil_payload msg Hin Hraw). by apply codec_nil. }
  destruct (decide (shttp.Type_ msg ∈ edge_types)) as [He|He].
  { assert (Hin : shttp.Type_ msg ∈ node_types ++ edge_types)
      by (apply elem_of_app; by right).
    destruct (shttp.Obj msg) as [raw|] eqn:Hraw.
    - destruct (json_Unmarshal raw) as [obj|err] eqn:Hparse.
      + destruct (Edge_Decode obj) as [e|err] eqn:Hshape.
        * assert (Hp : payload_edge msg = Some e)
            by (unfold payload_edge; by rewrite Hraw, Hparse, Hshape).
          rewrite (codec_edge msg e He Hp). by apply codec_edge_ok.
        * rewrite (codec_decode_fails msg err); [|by eapply edge_shape_fails].
          apply codec_failed. by eapply edge_shape_fails.
      + rewrite (codec_decode_fails msg err); [|by eapply raw_parse_fails].
        apply codec_failed. by eapply raw_parse_fails.
    - rewrite (codec_nil_payload msg Hin Hraw). by apply codec_nil. }
  assert (Hout : shttp.Type_ msg ∉ "SyncRequest" :: node_types ++ edge_types).
  { intros [?|[?|?]%elem_of_app]%elem_of_cons; done. }
  rewrite (codec_unknown msg Hout). by apply codec_other.
Qed.

Lemma OnMessage_foreign c msg g :
  shttp.Namespace msg ≠ Namespace -> OnMessage c msg g = (Returned tt, g, []).
Proof.
  intros Hns%String.eqb_neq. unfold OnMessage. by rewrite Hns.
Qed.

Lemma OnMessage_sync c msg g :
  shttp.Namespace msg = Namespace ->
  shttp.Type_ msg = "SyncRequest" ->
  OnMessage c msg g = locked (Returned tt) g [SendWSMessage c (sync_reply g)].
Proof.
  intros Hns Ht. unfold OnMessage, UnmarshalWSMessage.
  rewrite (in_graph_namespace _ Hns), Ht. reflexivity.
Qed.

Lemma OnMessage_error c msg g err :
  shttp.Namespace msg = Namespace ->
  DecodeFails msg err ->
  OnMessage c msg g = locked (Returned tt) g [Errorf msg err].
Proof.
  intros Hns Hfail. unfold OnMessage. rewrite (in_graph_namespace _ Hns).
  run. rewrite (codec_decode_fails msg err Hfail). reflexivity.
Qed.

Lemma OnMessage_unknown c msg g :
  shttp.Namespace msg = Namespace ->
  shttp.Type_ msg ∉ "SyncRequest" :: node_types ++ edge_types ->
  OnMessage c msg g = locked (Returned tt) g [].
Proof.
  intros Hns Ht. unfold OnMessage. rewrite (in_graph_namespace _ Hns).
  run. rewrite (codec_unknown msg Ht). reflexivity.
Qed.

Lemma OnMessage_del_sub_graph c msg g n :
  shttp.Namespace msg = Namespace ->
  shttp.Type_ msg = "SubGraphDeleted" ->
  payload_node msg = Some n ->
  OnMessage c msg g =
    match GetNode g (Node_ID n) with
    | Some node =>
        (Returned tt, (DelSubGraph g node).1,
         Graph_Lock :: Debugf (Node_ID n)
           :: (broadcast_of <$> (DelSubGraph g node).2) ++ [Graph_Unlock])
    | None =>
        (Returned tt, g, [Graph_Lock; Debugf (Node_ID n); Graph_Unlock])
    end.
Proof.
  intros Hns Ht Hp. unfold OnMessage. rewrite (in_graph_namespace _ Hns).
  run. rewrite (codec_node msg n), Ht
    by (rewrite ?Ht; type_listed || assumption). simpl.
  destruct (GetNode g (Node_ID n)); [|reflexivity].
  rewrite mutate_run. reflexivity.
Qed.

(** Every run of the handler is one of the cases of [Handled]. *)
Lemma OnMessage_handled c msg g : Handled c msg g (OnMessage c msg g).
Proof.
  destruct (decide (shttp.Namespace msg = Namespace)) as [Hns|Hns];
    [|rewrite (OnMessage_foreign c msg g Hns); by apply handled_foreign].
  destruct (codec_cases msg) as [Ht|Ht Hnil|err Hfail|n Ht Hp|e Ht Hp|Ht].
  - rewrite (OnMessage_sync c msg g Hns Ht). by apply handled_sync.
  - rewrite (nil_payload_panics c msg g Hns Ht Hnil). by apply handled_nil.
  - rewrite (OnMessage_error c msg g err Hns Hfail). by apply handled_error.
  - pose proof Ht as Hin. type_cases Hin.
    + rewrite (OnMessage_del_sub_graph c msg g n Hns Hin Hp).
      replace (match GetNode g (Node_ID n) with
               | Some node => _ | None => _ end)
        with (locked (Returned tt)
                (match GetNode g (Node_ID n) with
                 | Some node => DelSubGraph g node
                 | None => (g, [])
                 end).1
                ([Debugf (Node_ID n)]
                   ++ (broadcast_of <$>
                         (match GetNode g (Node_ID n) with
                          | Some node => DelSubGraph g node
                          | None => (g, [])
                          end).2)))
        by (destruct (GetNode g (Node_ID n)); reflexivity).
      apply handled_entity; [done|]. by apply call_del_sub_graph.
    + rewrite (OnMessage_update c msg g (inl n) Hns (conj Hin Hp)).
      replace (match stored g (inl n) with Some y => _ | None => _ end)
        with (locked (Returned tt)
                (match stored g (inl n) with
                 | Some y => SetMetadata g y (incoming_metadata (inl n))
                 | None => (g, [])
                 end).1
                ([] ++ (broadcast_of <$>
                          (match stored g (inl n) with
                           | Some y => SetMetadata g y (incoming_metadata (inl n))
                           | None => (g, [])
                           end).2)))
        by (destruct (stored g (inl n)); reflexivity).
      apply handled_entity; [done|]. by apply call_set_metadata.
    + rewrite (OnMessage_delete c msg g (inl n) Hns (conj Hin Hp)).
      apply (handled_entity c msg g [] (del g (inl n))); [done|].
      by apply call_del.
    + rewrite (OnMessage_add c msg g (inl n) Hns (conj Hin Hp)).
      replace (match stored g (inl n) with Some _ => _ | None => _ end)
        with (locked (Returned tt)
                (match stored g (inl n) with
                 | Some _ => (g, [])
                 | None => add g (inl n)
                 end).1
                ([] ++ (broadcast_of <$>
                          (match stored g (inl n) with
                           | Some _ => (g, [])
                           | None => add g (inl n)
                           end).2)))
        by (destruct (stored g (inl n)); reflexivity).
      apply handled_entity; [done|]. by apply call_add.
  - pose proof Ht as Hin. type_cases Hin.
    + rewrite (OnMessage_update c msg g (inr e) Hns (conj Hin Hp)).
      replace (match stored g (inr e) with Some y => _ | None => _ end)
        with (locked (Returned tt)
                (match stored g (inr e) with
                 | Some y => SetMetadata g y (incoming_metadata (inr e))
                 | None => (g, [])
                 end).1
                ([] ++ (broadcast_of <$>
                          (match stored g (inr e) with
                           | Some y => SetMetadata g y (incoming_metadata (inr e))
                           | None => (g, [])
                           end).2)))
        by (destruct (stored g (inr e)); reflexivity).
      apply handled_entity; [done|]. by apply call_set_metadata.
    + rewrite (OnMessage_delete c msg g (inr e) Hns (conj Hin Hp)).
      apply (handled_entity c msg g [] (del g (inr e))); [done|].
      by apply call_del.
    + rewrite (OnMessage_add c msg g (inr e) Hns (conj Hin Hp)).
      replace (match stored g (inr e) with Some _ => _ | None => _ end)
        with (locked (Returned tt)
                (match stored g (inr e) with
                 | Some _ => (g, [])
                 | None => add g (inr e)
                 end).1
                ([] ++ (broadcast_of <$>
                          (match stored g (inr e) with
                           | Some _ => (g, [])
                           | None => add g (inr e)
                           end).2)))
        by (destruct (stored g (inr e)); reflexivity).
      apply handled_entity; [done|]. by apply call_add.
  - rewrite (OnMessage_unknown c msg g Hns Ht). by apply handled_unknown.
Qed.

Lemma relay_effect (evs : list (GraphEvent Metadata)) (e : Effect) :
  e ∈ broadcast_of <$> evs -> exists ev, e = BroadcastWSMessage (relayed ev).
Proof.
  intros (ev & -> & _)%list_elem_of_fmap. by exists ev.
Qed.

Lemma carries_type msg a b x :
  carries msg a b x -> shttp.Type_ msg = a ∨ shttp.Type_ msg = b.
Proof. destruct x; intros [Ht _]; [by left|by right]. Qed.

Lemma GraphCall_type g msg pre res :
  GraphCall g msg pre res -> shttp.Type_ msg ∈ node_types ++ edge_types.
Proof.
  intros [n Ht _|x Hx|x Hx|x Hx];
    [|apply carries_type in Hx as [Ht|Ht]..]; rewrite Ht; type_listed.
Qed.

Lemma GraphCall_pre g msg (pre : list Effect) res (e : Effect) :
  GraphCall g msg pre res -> e ∈ pre -> exists id, e = Debugf id.
Proof.
  intros [n _ _|x _|x _|x _] Hin;
    [apply list_elem_of_singleton in Hin; eauto|by apply elem_of_nil in Hin..].
Qed.

(** The lock is taken first and released last on every path through the
    handler of a message of the graph namespace, the path of a decode
    error and the path of a panic included; it is taken once and
    released once, so that all that the handler does, the broadcasts of
    the relay included, happens under the lock. *)
Theorem lock_brackets_every_run c msg g :
  shttp.Namespace msg = Namespace ->
  exists mid,
    (effects_of (OnMessage c msg g) = Graph_Lock :: mid ++ [Graph_Unlock])
    ∧ (Graph_Lock ∉ mid) ∧ (Graph_Unlock ∉ mid).
Proof.
  intros Hns.
  destruct (OnMessage_handled c msg g)
    as [Hf|_ _|_ _ _|err _ _|_ _|pre res _ Hcall]; [done|..];
    unfold locked, effects_of; cbn [snd]; eexists; (split; [reflexivity|]).
  1-4: split; intros Hin; repeat (apply elem_of_cons in Hin as [Hin|Hin]);
    try discriminate Hin; by apply elem_of_nil in Hin.
  split; intros [Hin|Hin]%elem_of_app.
  - apply (GraphCall_pre _ _ _ _ _ Hcall) in Hin as [id Hin]. discriminate.
  - apply relay_effect in Hin as [ev Hin]. discriminate.
  - apply (GraphCall_pre _ _ _ _ _ Hcall) in Hin as [id Hin]. discriminate.
  - apply relay_effect in Hin as [ev Hin]. discriminate.
Qed.

(** The handler sends a message to a connection in one case only: on a
    [SyncRequest] of the graph namespace, to the connection the request
    came from, and then the message is the reply to the request, it is the
    only thing the handler does under the lock, and the graph is the one
    before.  No other message is ever answered. *)
Theorem only_a_sync_request_is_answered c msg g c' m :
  SendWSMessage c' m ∈ effects_of (OnMessage c msg g) ->
  shttp.Namespace msg = Namespace
  ∧ shttp.Type_ msg = "SyncRequest"
  ∧ c' = c ∧ m = sync_reply g
  ∧ OnMessage c msg g
    = (Returned tt, g,
       [Graph_Lock; SendWSMessage c (sync_reply g); Graph_Unlock]).
Proof.
  destruct (OnMessage_handled c msg g)
    as [Hf|Hns Ht|_ _ _|err _ _|_ _|pre res _ Hcall];
    unfold locked, effects_of; simpl; intros Hin.
  - by apply elem_of_nil in Hin.
  - repeat (apply elem_of_cons in Hin as [Hin|Hin]); try discriminate Hin;
      [by injection Hin as -> ->|by apply elem_of_nil in Hin].
  - repeat (apply elem_of_cons in Hin as [Hin|Hin]); try discriminate Hin.
    by apply elem_of_nil in Hin.
  - repeat (apply elem_of_cons in Hin as [Hin|Hin]); try discriminate Hin.
    by apply elem_of_nil in Hin.
  - repeat (apply elem_of_cons in Hin as [Hin|Hin]); try discriminate Hin.
    by apply elem_of_nil in Hin.
  - apply elem_of_cons in Hin as [Hin|Hin]; [discriminate|].
    apply elem_of_app in Hin as [[Hin|Hin]%elem_of_app|Hin].
    + apply (GraphCall_pre _ _ _ _ _ Hcall) in Hin as [id Hin]. discriminate.
    + apply relay_effect in Hin as [ev Hin]. discriminate.
    + apply list_elem_of_singleton in Hin. discriminate.
Qed.

(** The handler broadcasts nothing of its own.  A broadcast in its run is
    the relay of a notification of the graph: its namespace is
    [Namespace], its type one of the six kinds of mutation; and it occurs
    only for a message of the graph namespace whose type stands for a
    node or an edge. *)
Theorem only_notifications_are_broadcast c msg g m :
  BroadcastWSMessage m ∈ effects_of (OnMessage c msg g) ->
  shttp.Namespace msg = Namespace
  ∧ shttp.Type_ msg ∈ node_types ++ edge_types
  ∧ shttp.Namespace m = Namespace
  ∧ shttp.Type_ m
    ∈ ["NodeUpdated"; "NodeAdded"; "NodeDeleted";
       "EdgeUpdated"; "EdgeAdded"; "EdgeDeleted"]
  ∧ exists ev, m = relayed ev.
Proof.
  destruct (OnMessage_handled c msg g)
    as [Hf|Hns Ht|_ _ _|err _ _|_ _|pre res Hns Hcall];
    unfold locked, effects_of; simpl; intros Hin.
  - by apply elem_of_nil in Hin.
  - repeat (apply elem_of_cons in Hin as [Hin|Hin]); try discriminate Hin.
    by apply elem_of_nil in Hin.
  - repeat (apply elem_of_cons in Hin as [Hin|Hin]); try discriminate Hin.
    by apply elem_of_nil in Hin.
  - repeat (apply elem_of_cons in Hin as [Hin|Hin]); try discriminate Hin.
    by apply elem_of_nil in Hin.
  - repeat (apply elem_of_cons in Hin as [Hin|Hin]); try discriminate Hin.
    by apply elem_of_nil in Hin.
  - apply elem_of_cons in Hin as [Hin|Hin]; [discriminate|].
    apply elem_of_app in Hin as [[Hin|Hin]%elem_of_app|Hin].
    + apply (GraphCall_pre _ _ _ _ _ Hcall) in Hin as [id Hin]. discriminate.
    + apply relay_effect in Hin as [ev [= ->]].
      split; [done|]. split; [by eapply GraphCall_type|].
      split; [reflexivity|]. split; [|by exists ev].
      destruct ev; simpl; repeat constructor.
    + apply list_elem_of_singleton in Hin. discriminate.
Qed.

(** The handler panics in one case only: a message of the graph
    namespace, of a type that stands for a node or an edge, that has no
    payload at all; the panic is the dereference of the [nil] payload.
    The graph is then the one before, and the deferred unlock has run. *)
Theorem handler_panics_exactly_on_a_missing_payload c msg g p :
  (outcome_of (OnMessage c msg g) = Panicked p
   ↔ p = NilDereference
     ∧ shttp.Namespace msg = Namespace
     ∧ shttp.Type_ msg ∈ node_types ++ edge_types
     ∧ shttp.Obj msg = None)
  ∧ (outcome_of (OnMessage c msg g) = Panicked p ->
     OnMessage c msg g
     = (Panicked NilDereference, g, [Graph_Lock; Graph_Unlock])).
Proof.
  assert (Hback :
    shttp.Namespace msg = Namespace ->
    shttp.Type_ msg ∈ node_types ++ edge_types ->
    shttp.Obj msg = None ->
    OnMessage c msg g = (Panicked NilDereference, g, [Graph_Lock; Graph_Unlock]))
    by apply nil_payload_panics.
  assert (Hforth :
    outcome_of (OnMessage c msg g) = Panicked p ->
    p = NilDereference
    ∧ shttp.Namespace msg = Namespace
    ∧ shttp.Type_ msg ∈ node_types ++ edge_types
    ∧ shttp.Obj msg = None).
  { destruct (OnMessage_handled c msg g)
      as [Hf|Hns Ht|Hns Ht Hnil|err _ _|_ _|pre res _ Hcall];
      unfold locked, outcome_of; simpl; intros Hp; try discriminate Hp.
    by injection Hp as <-. }
  split; [split; [exact Hforth|]|].
  - intros (-> & Hns & Ht & Hnil). by rewrite (Hback Hns Ht Hnil).
  - intros (_ & Hns & Ht & Hnil)%Hforth. exact (Hback Hns Ht Hnil).
Qed.

(** The codec returns an error exactly when a stage of the decoding of the
    payload fails with that error; the tag is then empty and the object is
    the message itself. *)
Theorem codec_errors_are_the_decode_failures msg t o err :
  UnmarshalWSMessage msg = Returned (t, o, Some err)
  ↔ DecodeFails msg err ∧ t = "" ∧ o = ObjMessage msg.
Proof.
  split.
  - intros Hc. pose proof (codec_cases msg) as Hcase. rewrite Hc in Hcase.
    inversion Hcase; subst; done.
  - intros (Hfail & -> & ->). by apply codec_decode_fails.
Qed.

(** The codec returns a node exactly when the type of the message is one of
    SubGraphDeleted, NodeUpdated, NodeDeleted, NodeAdded and both stages
    of the decoding of the payload succeed; the tag is then the type of
    the message and there is no error.  Likewise for an edge and the types
    EdgeUpdated, EdgeDeleted, EdgeAdded. *)
Theorem codec_decodes_exactly_the_entity_types msg t e :
  (forall n,
     UnmarshalWSMessage msg = Returned (t, ObjNode n, e)
     ↔ shttp.Type_ msg ∈ node_types ∧ t = shttp.Type_ msg ∧ e = None
       ∧ payload_node msg = Some n)
  ∧ (forall ed,
       UnmarshalWSMessage msg = Returned (t, ObjEdge ed, e)
       ↔ shttp.Type_ msg ∈ edge_types ∧ t = shttp.Type_ msg ∧ e = None
         ∧ payload_edge msg = Some ed).
Proof.
  split; intros x; split.
  - intros Hc. pose proof (codec_cases msg) as Hcase. rewrite Hc in Hcase.
    inversion Hcase; subst; done.
  - intros (Ht & -> & -> & Hp). by apply codec_node.
  - intros Hc. pose proof (codec_cases msg) as Hcase. rewrite Hc in Hcase.
    inversion Hcase; subst; done.
  - intros (Ht & -> & -> & Hp). by apply codec_edge.
Qed.

(** A [SubGraphDeleted] of the graph namespace that carries a node: the
    identity is logged; if no node of that identity is in the graph
    nothing else happens, and if there is one the handler calls
    [DelSubGraph] on the stored node (not on the decoded one) and what the
    graph reports of it is relayed. *)
Theorem sub_graph_is_deleted_from_the_stored_node c msg g n :
  shttp.Namespace msg = Namespace ->
  shttp.Type_ msg = "SubGraphDeleted" ->
  payload_node msg = Some n ->
  match GetNode g (Node_ID n) with
  | None =>
      OnMessage c msg g
      = (Returned tt, g, [Graph_Lock; Debugf (Node_ID n); Graph_Unlock])
  | Some node =>
      OnMessage c msg g
      = (Returned tt, (DelSubGraph g node).1,
         Graph_Lock :: Debugf (Node_ID n)
           :: (broadcast_of <$> (DelSubGraph g node).2) ++ [Graph_Unlock])
  end.
Proof.
  intros Hns Ht Hp. rewrite (OnMessage_del_sub_graph c msg g n Hns Ht Hp).
  by destruct (GetNode g (Node_ID n)).
Qed.

(** A [NodeAdded] or [EdgeAdded] of the graph namespace for an identity
    that is not in the graph: the handler hands the decoded entity to the
    graph's add, once, and relays what the graph reports of it. *)
Theorem unknown_entity_is_added c msg g x :
  shttp.Namespace msg = Namespace ->
  carries msg "NodeAdded" "EdgeAdded" x ->
  stored g x = None ->
  OnMessage c msg g
  = (Returned tt, (add g x).1,
     Graph_Lock :: (broadcast_of <$> (add g x).2) ++ [Graph_Unlock]).
Proof.
  intros Hns Hx Habsent. by rewrite (OnMessage_add c msg g x Hns Hx), Habsent.
Qed.

(** A [NodeDeleted] or [EdgeDeleted] of the graph namespace: whether or
    not an entity of that identity is in the graph, the handler hands the
    decoded entity (not a stored one) to the graph's delete, once, and
    relays what the graph reports of it. *)
Theorem delete_is_delegated_unconditionally c msg g x :
  shttp.Namespace msg = Namespace ->
  carries msg "NodeDeleted" "EdgeDeleted" x ->
  OnMessage c msg g
  = (Returned tt, (del g x).1,
     Graph_Lock :: (broadcast_of <$> (del g x).2) ++ [Graph_Unlock]).
Proof. apply OnMessage_delete. Qed.

(** What the relay sends, the codec reads.  The message a callback
    broadcasts for a notification is of the graph namespace and of a type
    the codec decodes; when its payload decodes back to the entity of the
    notification, the codec returns the notification's kind as tag and
    that entity as object, without error. *)
Theorem relayed_message_is_read_by_the_codec (ev : GraphEvent Metadata) g :
  payload_is (relayed ev) (event_entity ev) ->
  notifyListener ev g = (Returned tt, g, [BroadcastWSMessage (relayed ev)])
  ∧ shttp.Namespace (relayed ev) = Namespace
  ∧ UnmarshalWSMessage (relayed ev)
    = Returned (event_type ev, object_of (event_entity ev), None).
Proof.
  intros Hp. split; [by destruct ev|]. split; [reflexivity|].
  destruct ev as [n|n|n|e|e|e]; cbn [payload_is event_entity] in Hp;
    match goal with
    | Hn : payload_node ?m = Some ?n |- _ =>
        exact (codec_node m n ltac:(simpl; type_listed) Hn)
    | He : payload_edge ?m = Some ?e |- _ =>
        exact (codec_edge m e ltac:(simpl; type_listed) He)
    end.
Qed.

Lemma deliveries_of_a_known_entity k c msg g x :
  shttp.Namespace msg = Namespace ->
  carries msg "NodeAdded" "EdgeAdded" x ->
  is_Some (stored g x) ->
  deliveries k c msg g
  = (Returned tt, g, concat (replicate k [Graph_Lock; Graph_Unlock])).
Proof.
  intros Hns Hx [y Hy]. induction k as [|k IH]; [reflexivity|].
  cbn [deliveries]. rewrite (OnMessage_add c msg g x Hns Hx), Hy, IH.
  reflexivity.
Qed.

(** An add delivered any number of times adds once.  On a graph that finds
    by its identity what was just added to it, [k + 1] deliveries in a row
    of the same [NodeAdded] or [EdgeAdded] leave the graph that the first
    delivery leaves, and after the effects of the first delivery each
    further delivery only takes and releases the lock. *)
Theorem add_delivered_again_and_again_adds_once k c msg g x :
  shttp.Namespace msg = Namespace ->
  carries msg "NodeAdded" "EdgeAdded" x ->
  is_Some (stored (add g x).1 x) ->
  deliveries (S k) c msg g
  = (Returned tt, graph_after (OnMessage c msg g),
     effects_of (OnMessage c msg g)
       ++ concat (replicate k [Graph_Lock; Graph_Unlock])).
Proof.
  intros Hns Hx Hfound. cbn [deliveries].
  rewrite (OnMessage_add c msg g x Hns Hx).
  destruct (stored g x) as [y|] eqn:Hs.
  - rewrite (deliveries_of_a_known_entity k c msg g x Hns Hx) by eauto.
    reflexivity.
  - rewrite (deliveries_of_a_known_entity k c msg (add g x).1 x Hns Hx Hfound).
    reflexivity.
Qed.

(** A stale update does not bring a deleted entity back.  After a
    [NodeDeleted] or [EdgeDeleted] was handled, on a graph that no longer
    finds the deleted identity, an update that carries that identity is
    dropped: the graph stays as the delete left it and nothing is sent. *)
Theorem update_after_delete_is_dropped c deleted updated g x x' :
  shttp.Namespace deleted = Namespace ->
  shttp.Namespace updated = Namespace ->
  carries deleted "NodeDeleted" "EdgeDeleted" x ->
  carries updated "NodeUpdated" "EdgeUpdated" x' ->
  stored (del g x).1 x' = None ->
  let g1 := graph_after (OnMessage c deleted g) in
  g1 = (del g x).1
  ∧ OnMessage c updated g1 = (Returned tt, g1, [Graph_Lock; Graph_Unlock]).
Proof.
  intros Hd Hu Hx Hx' Hgone g1. subst g1.
  rewrite (OnMessage_delete c deleted g x Hd Hx). unfold graph_after; simpl.
  split; [reflexivity|].
  by rewrite (OnMessage_update c updated _ x' Hu Hx'), Hgone.
Qed.

(** The handler does one thing per message.  Every run is one of: a
    foreign message dropped before the lock; under the lock, the reply to
    a [SyncRequest], or the panic on a missing payload, or the log of a
    decode error, or nothing for an unknown type, each with the graph
    untouched; or, for a decoded node or edge, at most one call of one
    method of the graph, whose notifications are the broadcasts. *)
Theorem handler_does_one_thing c msg g : Handled c msg g (OnMessage c msg g).
Proof. apply OnMessage_handled. Qed.

End Cases.

(** *** The same, run on the graph in memory *)

Lemma lock_brackets_every_run_witness :
  exists mid,
    (effects_of (handle 7 (Memory.message "Graph" "NodeAdded" "n1") Memory.empty)
     = Graph_Lock :: mid ++ [Graph_Unlock])
    ∧ (Graph_Lock ∉ mid) ∧ (Graph_Unlock ∉ mid).
Proof.
  apply (lock_brackets_every_run (H := Memory.collaborators)). reflexivity.
Defined.

Lemma only_a_sync_request_is_answered_witness :
  shttp.Type_ (Memory.message "Graph" "SyncRequest" "") = "SyncRequest"
  ∧ handle 7 (Memory.message "Graph" "SyncRequest" "") g1
    = (Returned tt, g1,
       [Graph_Lock;
        SendWSMessage (H := Memory.collaborators) 7
          (Memory.message "Graph" "SyncReply" "n1,e1,n1,n2");
        Graph_Unlock]).
Proof.
  destruct (only_a_sync_request_is_answered (H := Memory.collaborators)
              7 (Memory.message "Graph" "SyncRequest" "") g1 7
              (Memory.message "Graph" "SyncReply" "n1,e1,n1,n2"))
    as (_ & Ht & _ & _ & Hrun).
  - apply (list_elem_of_lookup_2 _ 1). reflexivity.
  - split; [exact Ht | exact Hrun].
Defined.

Lemma only_notifications_are_broadcast_witness :
  exists ev,
    Memory.message "Graph" "NodeAdded" "n1"
    = relayed (H := Memory.collaborators) ev.
Proof.
  destruct (only_notifications_are_broadcast (H := Memory.collaborators)
              7 (Memory.message "Graph" "NodeAdded" "n1") Memory.empty
              (Memory.message "Graph" "NodeAdded" "n1"))
    as (_ & _ & _ & _ & Hev).
  - apply (list_elem_of_lookup_2 _ 1). reflexivity.
  - exact Hev.
Defined.

Lemma handler_panics_witness :
  (let msg := {| shttp.Namespace := "Graph"; shttp.Type_ := "EdgeAdded";
                 shttp.Obj := None |} in
   outcome_of (handle 7 msg g1) = Panicked NilDereference)
  ∧ (let msg := {| shttp.Namespace := "Graph"; shttp.Type_ := "NodeDeleted";
                   shttp.Obj := None |} in
     handle 7 msg g1 = (Panicked NilDereference, g1, [Graph_Lock; Graph_Unlock])).
Proof.
  split; cbv zeta.
  - apply (handler_panics_exactly_on_a_missing_payload
             (H := Memory.collaborators)).
    repeat split; first [reflexivity | type_listed].
  - apply (handler_panics_exactly_on_a_missing_payload
             (H := Memory.collaborators) 7 _ g1 NilDereference).
    reflexivity.
Defined.

Lemma codec_errors_witness :
  DecodeFails (H := Memory.collaborators)
    (Memory.message "Graph" "NodeUpdated" "n1,k") "not a node".
Proof.
  apply (codec_errors_are_the_decode_failures (H := Memory.collaborators)
           (Memory.message "Graph" "NodeUpdated" "n1,k") ""
           (ObjMessage (H := Memory.collaborators)
              (Memory.message "Graph" "NodeUpdated" "n1,k"))
           "not a node").
  reflexivity.
Defined.

Lemma codec_decodes_witness :
  payload_edge (H := Memory.collaborators)
    (Memory.message "Flow" "EdgeDeleted" "e1,n1,n2") = Some e1
  ∧ codec (Memory.message "Graph" "NodeAdded" "n1")
    = Returned ("NodeAdded", ObjNode (H := Memory.collaborators) n1, None).
Proof.
  split.
  - apply (proj2 (codec_decodes_exactly_the_entity_types
                    (H := Memory.collaborators)
                    (Memory.message "Flow" "EdgeDeleted" "e1,n1,n2")
                    "EdgeDeleted" None) e1).
    reflexivity.
  - apply (proj1 (codec_decodes_exactly_the_entity_types
                    (H := Memory.collaborators)
                    (Memory.message "Graph" "NodeAdded" "n1")
                    "NodeAdded" None) n1).
    repeat split; type_listed.
Defined.

Lemma sub_graph_witness :
  (handle 7 (Memory.message "Graph" "SubGraphDeleted" "n9") g1
   = (Returned tt, g1,
      [Graph_Lock; Debugf (H := Memory.collaborators) "n9"; Graph_Unlock]))
  ∧ (graph_after (handle 7 (Memory.message "Graph" "SubGraphDeleted" "n1") g1)
     = Memory.empty).
Proof.
  split.
  - exact (sub_graph_is_deleted_from_the_stored_node
             (H := Memory.collaborators) 7
             (Memory.message "Graph" "SubGraphDeleted" "n9") g1
             {| Node_ID := "n9"; Node_metadata := ∅ |}
             eq_refl eq_refl eq_refl).
  - unfold handle.
    rewrite (sub_graph_is_deleted_from_the_stored_node
               (H := Memory.collaborators) 7
               (Memory.message "Graph" "SubGraphDeleted" "n1") g1 n1
               eq_refl eq_refl eq_refl).
    reflexivity.
Defined.

Lemma unknown_entity_is_added_witness :
  handle 7 (Memory.message "Graph" "EdgeAdded" "e1,n1,n2") Memory.empty
  = (Returned tt, (Memory.add_edge Memory.empty e1).1,
     [Graph_Lock;
      BroadcastWSMessage (H := Memory.collaborators)
        (Memory.message "Graph" "EdgeAdded" "e1,n1,n2");
      Graph_Unlock]).
Proof.
  apply (unknown_entity_is_added (H := Memory.collaborators)
           7 _ Memory.empty (inr e1));
    [reflexivity | split; reflexivity | reflexivity].
Defined.

Lemma delete_is_delegated_witness :
  handle 7 (Memory.message "Graph" "NodeDeleted" "n1") g1
  = (Returned tt, (Memory.add_edge Memory.empty e1).1,
     [Graph_Lock;
      BroadcastWSMessage (H := Memory.collaborators)
        (Memory.message "Graph" "NodeDeleted" "n1");
      Graph_Unlock]).
Proof.
  apply (delete_is_delegated_unconditionally (H := Memory.collaborators)
           7 _ g1 (inl n1));
    [reflexivity | split; reflexivity].
Defined.

Lemma relayed_message_witness :
  codec (relayed (H := Memory.collaborators)
           (EdgeUpdatedEvent (e1 : Edge (Metadata (Collaborators := Memory.collaborators)))))
  = Returned ("EdgeUpdated", ObjEdge (H := Memory.collaborators) e1, None).
Proof.
  apply (relayed_message_is_read_by_the_codec (H := Memory.collaborators)
           (EdgeUpdatedEvent e1) g1).
  reflexivity.
Defined.

Lemma add_delivered_again_witness :
  deliveries (H := Memory.collaborators) 3 7
    (Memory.message "Graph" "NodeAdded" "n1") Memory.empty
  = (Returned tt, (Memory.add_node Memory.empty n1).1,
     [Graph_Lock;
      BroadcastWSMessage (H := Memory.collaborators)
        (Memory.message "Graph" "NodeAdded" "n1");
      Graph_Unlock;
      Graph_Lock; Graph_Unlock; Graph_Lock; Graph_Unlock]).
Proof.
  rewrite (add_delivered_again_and_again_adds_once
             (H := Memory.collaborators) 2 7
             (Memory.message "Graph" "NodeAdded" "n1") Memory.empty (inl n1));
    [reflexivity | reflexivity | split; reflexivity | by exists (inl n1)].
Defined.

Lemma update_after_delete_witness :
  let g := graph_after (handle 7 (Memory.message "Graph" "NodeDeleted" "n1") g1) in
  g = (Memory.add_edge Memory.empty e1).1
  ∧ handle 7 (Memory.message "Graph" "NodeUpdated" "n1,k,v") g
    = (Returned tt, g, [Graph_Lock; Graph_Unlock]).
Proof.
  apply (update_after_delete_is_dropped (H := Memory.collaborators) 7
           (Memory.message "Graph" "NodeDeleted" "n1")
           (Memory.message "Graph" "NodeUpdated" "n1,k,v") g1
           (inl n1)
           (inl {| Node_ID := "n1"; Node_metadata := {["k" := "v"]} |}));
    [reflexivity | reflexivity | split; reflexivity | split; reflexivity
    | reflexivity].
Defined.
